(** * Single-stage rocket design calculator

    A shallow embedding of [rocket-design-calculator-single-stage.py] and the
    properties of its calculation core.

    Number model.  The script computes on Python floats; the closed-form
    physics is modelled over the real numbers [R] of the Standard Library
    ([math.exp], [math.cos], [math.sqrt] and [math.pi] are [exp], [cos],
    [sqrt] and [PI]).  The two functions that only use [+ - * /] and a
    comparison are modelled a second time over IEEE binary64 (module
    [Binary64]), where rounding itself is the subject.

    Effects.  Python's [/] raises [ZeroDivisionError], [math.sqrt] raises
    [ValueError], [math.exp] raises [OverflowError] when its result is too
    large for a float, [input] raises [EOFError]; pure functions therefore
    return a [result].  [main] reads lines and prints: it runs in the monad [M],
    which threads the unread lines of standard input and collects the
    events ([Prompted], [Printed], [Called]) the run produces. *)

From Stdlib Require Import Reals Lra Lia List Bool Factorial Machin.
From Stdlib Require Floats.PrimFloat.
Import ListNotations.

Local Open Scope R_scope.

(** ** Outcomes of evaluating Python code *)

Inductive exn : Set :=
| ZeroDivisionError
| ValueError
| OverflowError
| EOFError.

(** [OutOfFuel] is not a Python outcome: it is what a bounded unrolling of
    [while True] answers when the bound is reached. *)
Inductive result (A : Type) : Type :=
| Return (a : A)
| Raise (e : exn)
| OutOfFuel.

Arguments Return {A} a.
Arguments Raise {A} e.
Arguments OutOfFuel {A}.

Definition rbind {A B : Type} (r : result A) (k : A -> result B) : result B :=
  match r with
  | Return a => k a
  | Raise e => Raise e
  | OutOfFuel => OutOfFuel
  end.

Declare Scope py_scope.
Delimit Scope py_scope with py.
Notation "x <- r ;; k" := (rbind r (fun x => k))
  (at level 61, r at next level, right associativity) : py_scope.
Notation "' pat <- r ;; k" := (rbind r (fun x => match x with pat => k end))
  (at level 61, pat pattern, r at next level, right associativity) : py_scope.

(** ** The calculation core over the reals *)

Module Py.

  (** [a / b] on floats. *)
Definition div (a b : R) : result R :=
    if Req_dec_T b 0 then Raise ZeroDivisionError else Return (a / b).

  (** [math.sqrt(x)]. *)
Definition math_sqrt (x : R) : result R :=
    if Rlt_dec x 0 then Raise ValueError else Return (sqrt x).

  (** [math.radians(x)]: [x] times the constant pi/180. *)
Definition math_radians (x : R) : R := x * (PI / 180).

Definition math_cos (x : R) : R := cos x.
(** The largest finite binary64 number, (2^53 - 1) * 2^971. *)
Definition float_max : R := IZR ((2 ^ 53 - 1) * 2 ^ 971)%Z.

(** [math.exp(x)]: [OverflowError] when the result is too large for a float,
    that is, in this model, above [float_max] (for [x] above about 709.78).
    A result too small for a float raises nothing. *)
Definition math_exp (x : R) : result R :=
  if Rlt_dec float_max (exp x) then Raise OverflowError else Return (exp x).
Definition math_pi : R := PI.

End Py.

Local Open Scope py_scope.

(** A mass breakdown: [(m0, m_structure, m_fuel)]. *)
Definition masses : Type := (R * R * R)%type.

Definition calculate_orbital_velocity (orbit_altitude : R) : result R :=
  let G := 6.67430e-11 in
  let M := 5.972e24 in
  let R_E := 6371000 in
  let R := R_E + orbit_altitude in
  q <- Py.div (G * M) R ;;
  v_orbital <- Py.math_sqrt q ;;
  Return v_orbital.

Definition calculate_rotational_boost (latitude_deg : R) : result R :=
  omega <- Py.div (2 * Py.math_pi) 86400 ;;
  let R_E := 6371000 in
  let latitude_rad := Py.math_radians latitude_deg in
  let v_rotation := omega * R_E * Py.math_cos latitude_rad in
  Return v_rotation.

Definition calculate_mass_ratio (delta_v specific_impulse : R) : result (R * R) :=
  let g0 := 9.81 in
  let ve := specific_impulse * g0 in
  q <- Py.div delta_v ve ;;
  mass_ratio <- Py.math_exp q ;;
  Return (mass_ratio, ve).

(** [Return None] is the script's [return None]: the structural fraction is
    too high. *)
Definition calculate_total_mass (m_payload mass_ratio structural_fraction : R)
  : result (option masses) :=
  let denominator := 1 - mass_ratio * structural_fraction in
  if Rle_dec denominator 0 then Return None
  else
    m0 <- Py.div (mass_ratio * m_payload) denominator ;;
    let m_structure := structural_fraction * m0 in
    let m_fuel := m0 - m_structure - m_payload in
    Return (Some (m0, m_structure, m_fuel)).

Definition find_max_structural_fraction (mass_ratio : R) : result R :=
  Py.div 1 mass_ratio.

(** The recomputation of [main] (lines 118 to 121) on its own: the maximum
    fraction, then the breakdown with it. *)
Definition recompute (m_payload mass_ratio : R) : result (option masses) :=
  max_structural_fraction <- find_max_structural_fraction mass_ratio ;;
  calculate_total_mass m_payload mass_ratio max_structural_fraction.

(** ** Console input and output *)

(** A line typed at a prompt, as [get_float_input] distinguishes them: blank
    (empty after [strip]), text that [float] rejects, or a number.  The
    texts that [float] reads as an infinity or a NaN have no counterpart
    in [R]. *)
Inductive line : Type :=
| Blank
| Malformed
| Number (x : R).

Inductive prompt : Set :=
| PromptPayload
| PromptSpecificImpulse
| PromptLatitude
| PromptAltitude
| PromptStructuralFraction
| PromptDeltaV.

(** The functions [main] calls. *)
Inductive fname : Set :=
| F_calculate_orbital_velocity
| F_calculate_rotational_boost
| F_calculate_mass_ratio
| F_calculate_total_mass
| F_find_max_structural_fraction.

(** What the script prints; a message carries the values it formats, the
    number formatting itself is not modelled. *)
Inductive message : Type :=
| MsgBanner
| MsgEnterParameters
| MsgInvalidInput
| MsgDeltaVRange
| MsgCalculations
| MsgOrbitalVelocity (v_orbital : R)
| MsgRotationalBoost (launch_latitude v_rotation : R)
| MsgDeltaVBudget (delta_v_budget : R)
| MsgMassRatio (mass_ratio : R)
| MsgExhaustVelocity (ve : R)
| MsgWarning (structural_fraction : R)
| MsgAdjusting (max_structural_fraction : R)
| MsgStillTooHigh
| MsgTotalMass (m0 : R)
| MsgStructuralMass (m_structure : R)
| MsgFuelMass (m_fuel : R)
| MsgSummary (payload_mass m_structure m_fuel m0
              delta_v_budget mass_ratio ve v_orbital v_rotation : R)
| MsgNotes (default_structural_fraction structural_fraction : R).

Inductive event : Type :=
| Prompted (p : prompt) (default : R)
| Printed (m : message)
| Called (f : fname) (args : list R).

(** One run: the lines left unread, the events produced, the outcome. *)
Record run (A : Type) : Type := mkRun {
  rest : list line;
  out : list event;
  res : result A
}.

Arguments mkRun {A} rest out res.
Arguments rest {A} r.
Arguments out {A} r.
Arguments res {A} r.

Definition M (A : Type) : Type := list line -> run A.

Definition ret {A : Type} (a : A) : M A :=
  fun stdin => mkRun stdin [] (Return a).

Definition bind {A B : Type} (m : M A) (k : A -> M B) : M B :=
  fun stdin =>
    let r := m stdin in
    match res r with
    | Return a =>
        let r' := k a (rest r) in
        mkRun (rest r') (out r ++ out r') (res r')
    | Raise e => mkRun (rest r) (out r) (Raise e)
    | OutOfFuel => mkRun (rest r) (out r) OutOfFuel
    end.

Declare Scope io_scope.
Delimit Scope io_scope with io.
Notation "x <- m ;; k" := (bind m (fun x => k))
  (at level 61, m at next level, right associativity) : io_scope.
Notation "' pat <- m ;; k" := (bind m (fun x => match x with pat => k end))
  (at level 61, pat pattern, m at next level, right associativity) : io_scope.
Notation "m ;; k" := (bind m (fun _ => k))
  (at level 61, right associativity) : io_scope.

(** [print(...)]. *)
Definition print (m : message) : M unit :=
  fun stdin => mkRun stdin [Printed m] (Return tt).

(** [input(prompt)]: shows the prompt, then takes the next line. *)
Definition input (p : prompt) (default : R) : M line :=
  fun stdin =>
    match stdin with
    | [] => mkRun [] [Prompted p default] (Raise EOFError)
    | l :: stdin' => mkRun stdin' [Prompted p default] (Return l)
    end.

(** A pure computation inside [main]. *)
Definition lift {A : Type} (r : result A) : M A :=
  fun stdin => mkRun stdin [] r.

(** A call of one of the calculation functions; the call is recorded. *)
Definition call {A : Type} (f : fname) (args : list R) (r : result A) : M A :=
  fun stdin => mkRun stdin [Called f args] r.

Local Open Scope io_scope.

Definition get_float_input (p : prompt) (default : R) : M R :=
  inp <- input p default ;;
  match inp with
  | Number x => ret x
  | Blank => ret default
  | Malformed => print MsgInvalidInput ;; ret default
  end.

(** The values [main] has read when the calculations start. *)
Record parameters : Type := mkParameters {
  payload_mass : R;
  specific_impulse : R;
  launch_latitude : R;
  orbit_altitude : R;
  structural_fraction : R;
  delta_v_budget : R
}.

Definition default_payload : R := 1.0.
Definition default_specific_impulse : R := 350.0.
Definition default_launch_latitude : R := 45.0.
Definition default_orbit_altitude : R := 200000.0.
Definition default_structural_fraction : R := 0.10.
Definition default_delta_v_budget : R := 9.5e3.

(** [9.3 <= delta_v_budget <= 10.0]. *)
Definition delta_v_in_range (delta_v_budget : R) : bool :=
  (if Rle_dec 9.3 delta_v_budget then true else false)
  && (if Rle_dec delta_v_budget 10.0 then true else false).

(** The [while True] loop of [main] that asks for the delta-v budget, unrolled
    at most [fuel] times. *)
Fixpoint delta_v_loop (fuel : nat) : M R :=
  match fuel with
  | O => lift OutOfFuel
  | S fuel' =>
      d <- lift (Py.div default_delta_v_budget 1000) ;;
      delta_v_budget <- get_float_input PromptDeltaV d ;;
      if delta_v_in_range delta_v_budget
      then ret (delta_v_budget * 1000)
      else print MsgDeltaVRange ;; delta_v_loop fuel'
  end.

(** Lines 67 to 92 of [main]: the banner and the six prompts. *)
Definition main_inputs (fuel : nat) : M parameters :=
  print MsgBanner ;;
  print MsgEnterParameters ;;
  payload_mass <- get_float_input PromptPayload default_payload ;;
  specific_impulse <- get_float_input PromptSpecificImpulse default_specific_impulse ;;
  launch_latitude <- get_float_input PromptLatitude default_launch_latitude ;;
  orbit_altitude <- get_float_input PromptAltitude default_orbit_altitude ;;
  structural_fraction <-
    get_float_input PromptStructuralFraction default_structural_fraction ;;
  delta_v_budget <- delta_v_loop fuel ;;
  ret (mkParameters payload_mass specific_impulse launch_latitude orbit_altitude
         structural_fraction delta_v_budget).

(** Lines 128 to 149 of [main]: the report, once a mass breakdown exists. *)
Definition main_report (p : parameters) (v_orbital v_rotation mass_ratio ve : R)
  (structural_fraction : R) (total_mass_result : masses) : M unit :=
  let '(m0, m_structure, m_fuel) := total_mass_result in
  print (MsgTotalMass m0) ;;
  print (MsgStructuralMass m_structure) ;;
  print (MsgFuelMass m_fuel) ;;
  print (MsgSummary (payload_mass p) m_structure m_fuel m0 (delta_v_budget p)
           mass_ratio ve v_orbital v_rotation) ;;
  print (MsgNotes default_structural_fraction structural_fraction).

(** Lines 94 to 126 of [main], then the report. *)
Definition main_calculations (p : parameters) : M unit :=
  print MsgCalculations ;;
  v_orbital <- call F_calculate_orbital_velocity [orbit_altitude p]
                 (calculate_orbital_velocity (orbit_altitude p)) ;;
  print (MsgOrbitalVelocity v_orbital) ;;
  v_rotation <- call F_calculate_rotational_boost [launch_latitude p]
                  (calculate_rotational_boost (launch_latitude p)) ;;
  print (MsgRotationalBoost (launch_latitude p) v_rotation) ;;
  print (MsgDeltaVBudget (delta_v_budget p)) ;;
  '(mass_ratio, ve) <-
    call F_calculate_mass_ratio [delta_v_budget p; specific_impulse p]
      (calculate_mass_ratio (delta_v_budget p) (specific_impulse p)) ;;
  print (MsgMassRatio mass_ratio) ;;
  print (MsgExhaustVelocity ve) ;;
  total_mass_result <-
    call F_calculate_total_mass [payload_mass p; mass_ratio; structural_fraction p]
      (calculate_total_mass (payload_mass p) mass_ratio (structural_fraction p)) ;;
  match total_mass_result with
  | Some t => main_report p v_orbital v_rotation mass_ratio ve (structural_fraction p) t
  | None =>
      print (MsgWarning (structural_fraction p)) ;;
      max_structural_fraction <-
        call F_find_max_structural_fraction [mass_ratio]
          (find_max_structural_fraction mass_ratio) ;;
      print (MsgAdjusting max_structural_fraction) ;;
      let structural_fraction := max_structural_fraction in
      total_mass_result <-
        call F_calculate_total_mass [payload_mass p; mass_ratio; structural_fraction]
          (calculate_total_mass (payload_mass p) mass_ratio structural_fraction) ;;
      match total_mass_result with
      | None => print MsgStillTooHigh ;; ret tt
      | Some t => main_report p v_orbital v_rotation mass_ratio ve structural_fraction t
      end
  end.

(** [main()] on a console whose remaining input is [stdin].  Every pass of the
    delta-v loop reads a line, so one more pass than there are lines is
    enough (see [delta_v_loop_enough_fuel]). *)
Definition main : M unit :=
  fun stdin =>
    (p <- main_inputs (S (length stdin)) ;; main_calculations p) stdin.

Local Close Scope io_scope.

(** ** The arithmetic-only functions over IEEE binary64

    [calculate_total_mass] and [find_max_structural_fraction] use only
    [- * /] and [<=], which Python evaluates as correctly rounded binary64
    operations: these are the primitive float operations, so the two
    functions can be evaluated bit for bit. *)

Module Binary64.

Import PrimFloat.
Local Open Scope float_scope.

  (** [a / b] on floats: [ZeroDivisionError] when [b == 0.0] (either sign). *)
Definition div (a b : float) : result float :=
    if (b =? 0)%float then Raise ZeroDivisionError else Return (a / b).

Definition masses : Type := (float * float * float)%type.

Definition calculate_total_mass (m_payload mass_ratio structural_fraction : float)
    : result (option masses) :=
    let denominator := 1 - mass_ratio * structural_fraction in
    if (denominator <=? 0)%float then Return None
    else
      (m0 <- div (mass_ratio * m_payload) denominator ;;
       let m_structure := structural_fraction * m0 in
       let m_fuel := m0 - m_structure - m_payload in
       Return (Some (m0, m_structure, m_fuel)))%py.

Definition find_max_structural_fraction (mass_ratio : float) : result float :=
    div 1 mass_ratio.

  (** The recomputation of [main] (lines 118 to 121) on its own. *)
Definition recompute (m_payload mass_ratio : float) : result (option masses) :=
    (max_structural_fraction <- find_max_structural_fraction mass_ratio ;;
     calculate_total_mass m_payload mass_ratio max_structural_fraction)%py.


End Binary64.

(** ** Reading a run *)

Definition fname_eqb (f g : fname) : bool :=
  match f, g with
  | F_calculate_orbital_velocity, F_calculate_orbital_velocity
  | F_calculate_rotational_boost, F_calculate_rotational_boost
  | F_calculate_mass_ratio, F_calculate_mass_ratio
  | F_calculate_total_mass, F_calculate_total_mass
  | F_find_max_structural_fraction, F_find_max_structural_fraction => true
  | _, _ => false
  end.

(** The argument lists of the calls of [f], in order. *)
Fixpoint calls_of (f : fname) (evs : list event) : list (list R) :=
  match evs with
  | [] => []
  | Called g args :: evs' =>
      if fname_eqb f g then args :: calls_of f evs' else calls_of f evs'
  | _ :: evs' => calls_of f evs'
  end.

(** An event that shows a mass breakdown to the user. *)
Definition shows_result (e : event) : bool :=
  match e with
  | Printed (MsgTotalMass _)
  | Printed (MsgStructuralMass _)
  | Printed (MsgFuelMass _)
  | Printed (MsgSummary _ _ _ _ _ _ _ _ _) => true
  | _ => false
  end.



(** What [get_float_input] answers on a line. *)
Definition line_value (l : line) (default : R) : R :=
  match l with
  | Number x => x
  | Blank | Malformed => default
  end.

(** [x] is [y] up to [tol]. *)
Definition approx (x y tol : R) : Prop := Rabs (x - y) <= tol.

(** The parameters [main] works with when the six answers are [l1 .. l6] and
    the sixth is an acceptable delta-v budget. *)
Definition parameters_of (l1 l2 l3 l4 l5 l6 : line) : parameters :=
  mkParameters
    (line_value l1 default_payload)
    (line_value l2 default_specific_impulse)
    (line_value l3 default_launch_latitude)
    (line_value l4 default_orbit_altitude)
    (line_value l5 default_structural_fraction)
    (line_value l6 (default_delta_v_budget / 1000) * 1000).

(** The events of the calculations up to the first mass breakdown. *)
Definition calculation_events (p : parameters) (v_orbital v_rotation mass_ratio ve : R)
  : list event :=
  [ Printed MsgCalculations;
    Called F_calculate_orbital_velocity [orbit_altitude p];
    Printed (MsgOrbitalVelocity v_orbital);
    Called F_calculate_rotational_boost [launch_latitude p];
    Printed (MsgRotationalBoost (launch_latitude p) v_rotation);
    Printed (MsgDeltaVBudget (delta_v_budget p));
    Called F_calculate_mass_ratio [delta_v_budget p; specific_impulse p];
    Printed (MsgMassRatio mass_ratio);
    Printed (MsgExhaustVelocity ve);
    Called F_calculate_total_mass [payload_mass p; mass_ratio; structural_fraction p] ].

(** The events of the automatic correction when the corrected breakdown is
    infeasible again. *)
Definition correction_events (p : parameters) (mass_ratio max_structural_fraction : R)
  : list event :=
  [ Printed (MsgWarning (structural_fraction p));
    Called F_find_max_structural_fraction [mass_ratio];
    Printed (MsgAdjusting max_structural_fraction);
    Called F_calculate_total_mass [payload_mass p; mass_ratio; max_structural_fraction];
    Printed MsgStillTooHigh ].

Definition report_events (p : parameters) (v_orbital v_rotation mass_ratio ve sf : R)
  (t : masses) : list event :=
  let '(m0, m_structure, m_fuel) := t in
  [ Printed (MsgTotalMass m0);
    Printed (MsgStructuralMass m_structure);
    Printed (MsgFuelMass m_fuel);
    Printed (MsgSummary (payload_mass p) m_structure m_fuel m0 (delta_v_budget p)
               mass_ratio ve v_orbital v_rotation);
    Printed (MsgNotes default_structural_fraction sf) ].

(** The default mission: payload 1 kg, Isp 350 s, latitude 45, altitude
    200 km, structural fraction 0.10, delta-v 9500 m/s. *)
Definition default_parameters : parameters :=
  mkParameters 1 350 45 200000 0.10 9500.

(** The events of the input phase of [main]: prompts, the banner and the
    two messages about what was typed. *)
Definition input_event (e : event) : bool :=
  match e with
  | Prompted _ _
  | Printed MsgBanner
  | Printed MsgEnterParameters
  | Printed MsgInvalidInput
  | Printed MsgDeltaVRange => true
  | _ => false
  end.

(** The message that re-asks for the delta-v budget. *)
Definition is_range_message (e : event) : bool :=
  match e with
  | Printed MsgDeltaVRange => true
  | _ => false
  end.

(** [9.3 <= x <= 10.0] fails. *)
Definition out_of_range (x : R) : Prop := ~ (9.3 <= x <= 10.0).


(** ** Partial sums of the exponential series

    [exp_term x k] is [x^k / k!], by the recurrence that avoids the
    factorial; [exp_sum x n] is the sum of the terms up to [n]. *)

Fixpoint exp_term (x : R) (k : nat) : R :=
  match k with
  | O => 1
  | S k' => exp_term x k' * x / INR (S k')
  end.

Definition exp_sum (x : R) (n : nat) : R := sum_f_R0 (exp_term x) n.

(** * Properties *)

(** ** Bounds on [exp] and [PI] *)

Section ExpSeries.

Variable x : R.
Hypothesis x_nonneg : 0 <= x.

Lemma exp_term_series (k : nat) : exp_term x k = / INR (fact k) * x ^ k.
  Proof.
    induction k as [|k IH].
    - simpl. lra.
    - change (exp_term x (S k)) with (exp_term x k * x / INR (S k)).
      rewrite IH. rewrite fact_simpl, mult_INR.
      change (x ^ S k) with (x * x ^ k).
      field. split; [apply INR_fact_neq_0 | apply not_0_INR; discriminate].
  Qed.

Lemma exp_term_nonneg (k : nat) : 0 <= exp_term x k.
  Proof.
    induction k as [|k IH]; simpl exp_term; [lra|].
    assert (0 < INR (S k)) by (apply lt_0_INR; lia).
    apply Rmult_le_pos; [nra | left; now apply Rinv_0_lt_compat].
  Qed.

Lemma exp_sum_cv : Un_cv (exp_sum x) (exp x).
  Proof.
    pose proof (proj2_sig (exist_exp x)) as H.
    unfold exp_in, infinite_sum in H. fold (exp x) in H.
    intros eps Heps. destruct (H eps Heps) as [N HN]. exists N. intros n Hn.
    specialize (HN n Hn). unfold exp_sum.
    rewrite (sum_eq _ (fun i => / INR (fact i) * x ^ i)); [exact HN|].
    intros i _. apply exp_term_series.
  Qed.

  (** Every partial sum is below [exp x]. *)
Lemma exp_lower (n : nat) : exp_sum x n <= exp x.
  Proof.
    apply sum_incr.
    - apply exp_sum_cv.
    - intros k. apply exp_term_nonneg.
  Qed.

  (** The partial sum plus a geometric bound of its tail only decreases. *)
Lemma exp_tail_step (n m : nat) :
    x < INR (n + 2) ->
    exp_sum x (n + m) + exp_term x (S (n + m)) * (INR (n + 2) / (INR (n + 2) - x))
    <= exp_sum x n + exp_term x (S n) * (INR (n + 2) / (INR (n + 2) - x)).
  Proof.
    intros Hlt. set (c := INR (n + 2) / (INR (n + 2) - x)).
    assert (Hc : 1 <= c).
    { unfold c. apply Rmult_le_reg_r with (INR (n + 2) - x); [lra|].
      unfold Rdiv. rewrite Rmult_assoc, Rinv_l by lra. lra. }
    assert (Hcx : forall k, (n + 2 <= k)%nat -> 1 + x / INR k * c <= c).
    { intros k Hk. apply le_INR in Hk.
      assert (0 < INR (n + 2)) by (apply lt_0_INR; lia).
      assert (Hr : x / INR k <= x / INR (n + 2)).
      { unfold Rdiv. apply Rmult_le_compat_l; [lra|]. apply Rinv_le_contravar; lra. }
      assert (He : 1 + x / INR (n + 2) * c = c).
      { unfold c. field. split; lra. }
      nra. }
    induction m as [|m IH].
    - rewrite Nat.add_0_r. lra.
    - eapply Rle_trans; [|exact IH].
      replace (n + S m)%nat with (S (n + m)) by lia.
      unfold exp_sum at 1. rewrite tech5. fold (exp_sum x (n + m)).
      change (exp_term x (S (S (n + m))))
        with (exp_term x (S (n + m)) * x / INR (S (S (n + m)))).
      pose proof (exp_term_nonneg (S (n + m))) as Ht.
      specialize (Hcx (S (S (n + m))) ltac:(lia)).
      set (t := exp_term x (S (n + m))) in *.
      set (k := INR (S (S (n + m)))) in *.
      replace (t * x / k * c) with (t * (x / k * c)) by (unfold Rdiv; ring).
      nra.
  Qed.

Lemma exp_upper (n : nat) :
    x < INR (n + 2) ->
    exp x <= exp_sum x n + exp_term x (S n) * (INR (n + 2) / (INR (n + 2) - x)).
  Proof.
    intros Hlt.
    set (B := exp_sum x n + exp_term x (S n) * (INR (n + 2) / (INR (n + 2) - x))).
    destruct (Rle_lt_dec (exp x) B) as [|Hgt]; [assumption|exfalso].
    destruct (exp_sum_cv (exp x - B) ltac:(lra)) as [N HN].
    specialize (HN (n + N)%nat ltac:(lia)).
    pose proof (exp_tail_step n N Hlt) as Hstep. fold B in Hstep.
    assert (0 <= exp_term x (S (n + N)) * (INR (n + 2) / (INR (n + 2) - x))).
    { apply Rmult_le_pos; [apply exp_term_nonneg|].
      assert (0 < INR (n + 2)) by (apply lt_0_INR; lia).
      apply Rmult_le_pos; [lra | left; apply Rinv_0_lt_compat; lra]. }
    unfold Rdist in HN. apply Rabs_def2 in HN. lra.
  Qed.

End ExpSeries.

(** The mass ratio of the default mission: e^(9500/3433.5) = 15.9085... *)
Lemma exp_default_bounds : 15.90 < exp (9500 / (350 * 9.81)) < 15.92.
Proof.
  replace (9500 / (350 * 9.81)) with (19000 / 6867) by lra.
  split.
  - eapply Rlt_le_trans; [|apply (exp_lower (19000 / 6867) ltac:(lra) 12)].
    unfold exp_sum. simpl. lra.
  - eapply Rle_lt_trans; [apply (exp_upper (19000 / 6867) ltac:(lra) 13); simpl; lra|].
    unfold exp_sum. simpl. lra.
Qed.

(** *** Where [math.exp] overflows: between 709 and 710 *)

Lemma exp_INR_mult (n : nat) (y : R) : exp (INR n * y) = exp y ^ n.
Proof.
  induction n as [|n IH].
  - simpl. rewrite Rmult_0_l. apply exp_0.
  - rewrite S_INR, Rmult_plus_distr_r, Rmult_1_l, exp_plus, IH. simpl. ring.
Qed.


Lemma pow_below_float_max : (19985 / 10000) ^ 1024 <= Py.float_max.
Proof.
  unfold Py.float_max.
  assert (Hd : 0 < 10000 ^ 1024) by (apply pow_lt; lra).
  apply Rmult_le_reg_r with (10000 ^ 1024); [exact Hd|].
  rewrite <- Rpow_mult_distr.
  replace (19985 / 10000 * 10000) with 19985 by lra.
  rewrite !pow_IZR, <- mult_IZR. apply IZR_le.
  apply Z.leb_le. vm_compute. reflexivity.
Qed.

Lemma exp_709_1024 : exp (709 / 1024) <= 19985 / 10000.
Proof.
  eapply Rle_trans; [apply (exp_upper (709 / 1024) ltac:(lra) 8); simpl; lra|].
  unfold exp_sum. simpl. lra.
Qed.


(** Up to 709 the exponential fits in a float. *)
Lemma exp_no_overflow (q : R) : q <= 709 -> exp q <= Py.float_max.
Proof.
  intros Hq. apply Rle_trans with (exp 709).
  { destruct Hq as [Hq | ->]; [left; now apply exp_increasing | right; reflexivity]. }
  replace 709 with (INR 1024 * (709 / 1024)).
  2:{ rewrite INR_IZR_INZ. simpl. lra. }
  rewrite exp_INR_mult.
  eapply Rle_trans; [|exact pow_below_float_max].
  apply pow_incr. split; [left; apply exp_pos | exact exp_709_1024].
Qed.


Lemma math_exp_returns (x : R) :
  exp x <= Py.float_max -> Py.math_exp x = Return (exp x).
Proof.
  intros H. unfold Py.math_exp.
  destruct (Rlt_dec Py.float_max (exp x)) as [L|_]; [lra | reflexivity].
Qed.

Lemma math_exp_overflows (x : R) :
  Py.float_max < exp x -> Py.math_exp x = Raise OverflowError.
Proof.
  intros H. unfold Py.math_exp.
  destruct (Rlt_dec Py.float_max (exp x)) as [_|N]; [reflexivity | contradiction].
Qed.


Lemma approx_bounds (x y tol : R) : approx x y tol <-> y - tol <= x <= y + tol.
Proof.
  unfold approx, Rabs. destruct (Rcase_abs (x - y)); split; intros; lra.
Qed.

(** ** Division *)

Lemma div_nonzero (a b : R) : b <> 0 -> Py.div a b = Return (a / b).
Proof.
  intros Hb. unfold Py.div. destruct (Req_dec_T b 0) as [E|_]; [contradiction|reflexivity].
Qed.

Lemma div_zero (a : R) : Py.div a 0 = Raise ZeroDivisionError.
Proof.
  unfold Py.div. destruct (Req_dec_T 0 0) as [_|N]; [reflexivity|contradiction N; reflexivity].
Qed.

Lemma div_returns (a b q : R) : Py.div a b = Return q -> b <> 0 /\ q = a / b.
Proof.
  unfold Py.div. destruct (Req_dec_T b 0) as [E|N]; [discriminate|].
  intros H. injection H as <-. split; [exact N|reflexivity].
Qed.

(** ** The mass breakdown: [calculate_total_mass] *)

Lemma calculate_total_mass_infeasible (m_payload mass_ratio sf : R) :
  1 - mass_ratio * sf <= 0 ->
  calculate_total_mass m_payload mass_ratio sf = Return None.
Proof.
  intros HD. unfold calculate_total_mass.
  destruct (Rle_dec (1 - mass_ratio * sf) 0) as [_|N]; [reflexivity|contradiction].
Qed.

Lemma calculate_total_mass_feasible (m_payload mass_ratio sf : R) :
  0 < 1 - mass_ratio * sf ->
  calculate_total_mass m_payload mass_ratio sf =
    Return (Some (mass_ratio * m_payload / (1 - mass_ratio * sf),
                  sf * (mass_ratio * m_payload / (1 - mass_ratio * sf)),
                  mass_ratio * m_payload / (1 - mass_ratio * sf)
                  - sf * (mass_ratio * m_payload / (1 - mass_ratio * sf))
                  - m_payload)).
Proof.
  intros HD. unfold calculate_total_mass.
  destruct (Rle_dec (1 - mass_ratio * sf) 0) as [L|_]; [lra|].
  rewrite div_nonzero by lra. reflexivity.
Qed.

(** The guard comes before the division: the function never raises. *)
Lemma calculate_total_mass_total (m_payload mass_ratio sf : R) :
  exists r, calculate_total_mass m_payload mass_ratio sf = Return r.
Proof.
  destruct (Rle_lt_dec (1 - mass_ratio * sf) 0) as [L|G].
  - eexists. now apply calculate_total_mass_infeasible.
  - eexists. now apply calculate_total_mass_feasible.
Qed.

Lemma calculate_total_mass_none (m_payload mass_ratio sf : R) :
  calculate_total_mass m_payload mass_ratio sf = Return None <->
  1 - mass_ratio * sf <= 0.
Proof.
  split; [|apply calculate_total_mass_infeasible].
  intros H. destruct (Rle_lt_dec (1 - mass_ratio * sf) 0) as [L|G]; [exact L|].
  rewrite calculate_total_mass_feasible in H by exact G. discriminate.
Qed.



(** C1. For payload_mass > 0, mass_ratio >= 1 and structural_fraction in
    [0,1), [calculate_total_mass] answers [None] (the infeasibility signal,
    not a number) exactly when D = 1 - mass_ratio * structural_fraction <= 0;
    when D > 0 it returns m0 = mass_ratio * payload_mass / D,
    structural_fraction * m0 and m0 - structural_mass - payload_mass. *)
Theorem calculate_total_mass_spec (m_payload mass_ratio sf : R) :
  m_payload > 0 -> mass_ratio >= 1 -> 0 <= sf < 1 ->
  let D := 1 - mass_ratio * sf in
  (calculate_total_mass m_payload mass_ratio sf = Return None <-> D <= 0) /\
  (D > 0 ->
   let m0 := mass_ratio * m_payload / D in
   calculate_total_mass m_payload mass_ratio sf =
     Return (Some (m0, sf * m0, m0 - sf * m0 - m_payload))).
Proof.
  intros _ _ _ D. split.
  - apply calculate_total_mass_none.
  - intros HD m0. apply calculate_total_mass_feasible. exact HD.
Qed.

(** Scenario C of the specification: mass ratio 2, structural fraction 0.05. *)
Lemma calculate_total_mass_spec_witness :
  calculate_total_mass 1 2 0.05 =
    Return (Some (2 * 1 / (1 - 2 * 0.05),
                  0.05 * (2 * 1 / (1 - 2 * 0.05)),
                  2 * 1 / (1 - 2 * 0.05) - 0.05 * (2 * 1 / (1 - 2 * 0.05)) - 1)).
Proof.
  destruct (calculate_total_mass_spec 1 2 0.05) as [_ H]; [lra | lra | lra |].
  apply H. lra.
Defined.



(** ** The Tsiolkovsky mass ratio: [calculate_mass_ratio] *)

Lemma calculate_mass_ratio_value (delta_v isp : R) :
  isp <> 0 ->
  exp (delta_v / (isp * 9.81)) <= Py.float_max ->
  calculate_mass_ratio delta_v isp = Return (exp (delta_v / (isp * 9.81)), isp * 9.81).
Proof.
  intros Hisp Hfit. unfold calculate_mass_ratio.
  rewrite div_nonzero by lra. simpl. rewrite math_exp_returns by exact Hfit.
  reflexivity.
Qed.

Lemma calculate_mass_ratio_overflow (delta_v isp : R) :
  isp <> 0 ->
  Py.float_max < exp (delta_v / (isp * 9.81)) ->
  calculate_mass_ratio delta_v isp = Raise OverflowError.
Proof.
  intros Hisp Hover. unfold calculate_mass_ratio.
  rewrite div_nonzero by lra. simpl. rewrite math_exp_overflows by exact Hover.
  reflexivity.
Qed.

Lemma calculate_mass_ratio_zero_impulse (delta_v : R) :
  calculate_mass_ratio delta_v 0 = Raise ZeroDivisionError.
Proof.
  unfold calculate_mass_ratio.
  replace (0 * 9.81) with 0 by lra. rewrite div_zero. reflexivity.
Qed.

Lemma calculate_mass_ratio_returns (delta_v isp mr ve : R) :
  calculate_mass_ratio delta_v isp = Return (mr, ve) ->
  isp <> 0 /\ mr = exp (delta_v / (isp * 9.81)) /\ ve = isp * 9.81.
Proof.
  intros H. destruct (Req_dec_T isp 0) as [->|N].
  - rewrite calculate_mass_ratio_zero_impulse in H. discriminate.
  - destruct (Rle_lt_dec (exp (delta_v / (isp * 9.81))) Py.float_max) as [Hfit|Hover].
    + rewrite calculate_mass_ratio_value in H by assumption.
      injection H as <- <-. repeat split. exact N.
    + rewrite calculate_mass_ratio_overflow in H by assumption. discriminate.
Qed.

Lemma calculate_mass_ratio_returns_fits (delta_v isp mr ve : R) :
  calculate_mass_ratio delta_v isp = Return (mr, ve) ->
  exp (delta_v / (isp * 9.81)) <= Py.float_max.
Proof.
  intros H. destruct (Req_dec_T isp 0) as [->|N].
  - rewrite calculate_mass_ratio_zero_impulse in H. discriminate.
  - destruct (Rle_lt_dec (exp (delta_v / (isp * 9.81))) Py.float_max) as [Hfit|Hover].
    + exact Hfit.
    + rewrite calculate_mass_ratio_overflow in H by assumption. discriminate.
Qed.




(** ** The rotational boost: [calculate_rotational_boost] *)

Lemma calculate_rotational_boost_value (latitude_deg : R) :
  calculate_rotational_boost latitude_deg =
    Return (2 * PI / 86400 * 6371000 * cos (latitude_deg * (PI / 180))).
Proof.
  unfold calculate_rotational_boost. rewrite div_nonzero by lra. reflexivity.
Qed.


Lemma cos_latitude_nonneg (latitude_deg : R) :
  -90 <= latitude_deg <= 90 -> 0 <= cos (latitude_deg * (PI / 180)).
Proof.
  intros [Hlo Hhi]. pose proof PI_RGT_0.
  apply cos_ge_0; nra.
Qed.

(** C10. [calculate_rotational_boost] validates nothing: on every real
    latitude it returns omega * R_E * cos(radians(latitude)) and never raises;
    at latitude 180 the value is strictly negative, while on [-90, 90] it is
    non-negative. *)
Theorem calculate_rotational_boost_unvalidated :
  (forall latitude_deg,
      calculate_rotational_boost latitude_deg =
        Return (2 * PI / 86400 * 6371000 * cos (Py.math_radians latitude_deg))) /\
  (exists v, calculate_rotational_boost 180 = Return v /\ v < 0) /\
  (forall latitude_deg, -90 <= latitude_deg <= 90 ->
      exists v, calculate_rotational_boost latitude_deg = Return v /\ 0 <= v).
Proof.
  pose proof PI_RGT_0 as Hpi. repeat split.
  - intros lat. apply calculate_rotational_boost_value.
  - eexists. split; [apply calculate_rotational_boost_value|].
    replace (180 * (PI / 180)) with PI by lra. rewrite cos_PI. lra.
  - intros lat Hlat. eexists. split; [apply calculate_rotational_boost_value|].
    apply Rmult_le_pos; [lra | now apply cos_latitude_nonneg].
Qed.




(** ** Runs of [main] *)

Lemma bind_run {A B : Type} (m : M A) (k : A -> M B) (s s' : list line)
  (evs : list event) (a : A) :
  m s = mkRun s' evs (Return a) ->
  bind m k s = mkRun (rest (k a s')) (evs ++ out (k a s')) (res (k a s')).
Proof.
  intros H. unfold bind. rewrite H. reflexivity.
Qed.

Lemma bind_run_then {A B : Type} (m : M A) (k : A -> M B) (s s' s'' : list line)
  (evs evs' : list event) (a : A) (r : result B) :
  m s = mkRun s' evs (Return a) ->
  k a s' = mkRun s'' evs' r ->
  bind m k s = mkRun s'' (evs ++ evs') r.
Proof.
  intros H H'. rewrite (bind_run _ _ _ _ _ _ H), H'. reflexivity.
Qed.

Lemma run_events {A : Type} (r : run A) (s : list line) (evs evs' : list event)
  (o : result A) :
  r = mkRun s evs o -> evs = evs' -> r = mkRun s evs' o.
Proof. intros -> ->. reflexivity. Qed.

Lemma bind_raise {A B : Type} (m : M A) (k : A -> M B) (s s' : list line)
  (evs : list event) (e : exn) :
  m s = mkRun s' evs (Raise e) ->
  bind m k s = mkRun s' evs (Raise e).
Proof.
  intros H. unfold bind. rewrite H. reflexivity.
Qed.

(** A property of every event of [m] and of every continuation holds of
    every event of their sequence. *)
Lemma Forall_out_bind {A B : Type} (P : event -> Prop) (m : M A) (k : A -> M B)
  (s : list line) :
  Forall P (out (m s)) ->
  (forall a, res (m s) = Return a -> Forall P (out (k a (rest (m s))))) ->
  Forall P (out (bind m k s)).
Proof.
  intros Hm Hk. unfold bind.
  destruct (res (m s)) as [a|e|] eqn:E; simpl; [|exact Hm|exact Hm].
  apply Forall_app. split; [exact Hm|]. apply Hk. reflexivity.
Qed.

Lemma get_float_input_run (p : prompt) (default : R) (l : line) (s : list line) :
  exists evs,
    get_float_input p default (l :: s) = mkRun s evs (Return (line_value l default)).
Proof.
  destruct l; eexists; reflexivity.
Qed.

Lemma get_float_input_eof (p : prompt) (default : R) :
  get_float_input p default [] = mkRun [] [Prompted p default] (Raise EOFError).
Proof. reflexivity. Qed.

Lemma get_float_input_rest (p : prompt) (default : R) (s : list line) :
  rest (get_float_input p default s) = tl s.
Proof.
  destruct s as [|[| |x] s]; reflexivity.
Qed.

Lemma delta_v_in_range_iff (v : R) : delta_v_in_range v = true <-> 9.3 <= v <= 10.0.
Proof.
  unfold delta_v_in_range.
  destruct (Rle_dec 9.3 v), (Rle_dec v 10.0); simpl; split; intros H;
    try discriminate; try reflexivity; try split; try assumption; destruct H; contradiction.
Qed.

Lemma default_delta_v_div :
  Py.div default_delta_v_budget 1000 = Return (default_delta_v_budget / 1000).
Proof. apply div_nonzero. lra. Qed.

(** One pass of the delta-v loop on a line whose value is in range. *)
Lemma delta_v_loop_accepts (fuel : nat) (l : line) (s : list line) :
  delta_v_in_range (line_value l (default_delta_v_budget / 1000)) = true ->
  exists evs,
    delta_v_loop (S fuel) (l :: s) =
      mkRun s evs (Return (line_value l (default_delta_v_budget / 1000) * 1000)).
Proof.
  intros Hr. simpl delta_v_loop. unfold lift at 1.
  rewrite default_delta_v_div.
  destruct (get_float_input_run PromptDeltaV (default_delta_v_budget / 1000) l s)
    as [evs Hg].
  unfold bind at 1. simpl.
  rewrite (bind_run _ _ _ _ _ _ Hg). rewrite Hr. simpl.
  eexists. reflexivity.
Qed.


(** With more fuel than lines the loop never stops for lack of fuel. *)
Lemma delta_v_loop_enough_fuel (fuel : nat) (s : list line) :
  (length s < fuel)%nat -> res (delta_v_loop fuel s) <> OutOfFuel.
Proof.
  revert s. induction fuel as [|fuel IH]; intros s Hlen; [lia|].
  simpl delta_v_loop. unfold lift at 1. rewrite default_delta_v_div.
  unfold bind at 1. simpl.
  destruct s as [|l s].
  - rewrite (bind_raise _ _ _ _ _ _ (get_float_input_eof _ _)). discriminate.
  - destruct (get_float_input_run PromptDeltaV (default_delta_v_budget / 1000) l s)
      as [evs Hg].
    rewrite (bind_run _ _ _ _ _ _ Hg).
    destruct (delta_v_in_range _) eqn:Hr; simpl; [discriminate|].
    apply IH. simpl in Hlen. lia.
Qed.

Lemma main_inputs_run (fuel : nat) (l1 l2 l3 l4 l5 l6 : line) (s : list line) :
  delta_v_in_range (line_value l6 (default_delta_v_budget / 1000)) = true ->
  exists evs,
    main_inputs (S fuel) (l1 :: l2 :: l3 :: l4 :: l5 :: l6 :: s) =
      mkRun s evs (Return (parameters_of l1 l2 l3 l4 l5 l6)).
Proof.
  intros Hr. unfold main_inputs.
  destruct (get_float_input_run PromptPayload default_payload l1
              (l2 :: l3 :: l4 :: l5 :: l6 :: s)) as [e1 H1].
  destruct (get_float_input_run PromptSpecificImpulse default_specific_impulse l2
              (l3 :: l4 :: l5 :: l6 :: s)) as [e2 H2].
  destruct (get_float_input_run PromptLatitude default_launch_latitude l3
              (l4 :: l5 :: l6 :: s)) as [e3 H3].
  destruct (get_float_input_run PromptAltitude default_orbit_altitude l4
              (l5 :: l6 :: s)) as [e4 H4].
  destruct (get_float_input_run PromptStructuralFraction default_structural_fraction l5
              (l6 :: s)) as [e5 H5].
  destruct (delta_v_loop_accepts fuel l6 s Hr) as [e6 H6].
  eexists.
  eapply bind_run_then; [reflexivity|].
  eapply bind_run_then; [reflexivity|].
  eapply bind_run_then; [exact H1|].
  eapply bind_run_then; [exact H2|].
  eapply bind_run_then; [exact H3|].
  eapply bind_run_then; [exact H4|].
  eapply bind_run_then; [exact H5|].
  eapply bind_run_then; [exact H6|].
  reflexivity.
Qed.

Lemma main_run (l1 l2 l3 l4 l5 l6 : line) (s : list line) :
  delta_v_in_range (line_value l6 (default_delta_v_budget / 1000)) = true ->
  exists evs,
    main (l1 :: l2 :: l3 :: l4 :: l5 :: l6 :: s) =
      let r := main_calculations (parameters_of l1 l2 l3 l4 l5 l6) s in
      mkRun (rest r) (evs ++ out r) (res r).
Proof.
  intros Hr. unfold main.
  destruct (main_inputs_run (length (l1 :: l2 :: l3 :: l4 :: l5 :: l6 :: s))
              l1 l2 l3 l4 l5 l6 s Hr) as [evs H].
  exists evs. rewrite (bind_run _ _ _ _ _ _ H). reflexivity.
Qed.

Lemma find_max_structural_fraction_value (mass_ratio : R) :
  mass_ratio <> 0 -> find_max_structural_fraction mass_ratio = Return (1 / mass_ratio).
Proof. intros H. unfold find_max_structural_fraction. now apply div_nonzero. Qed.

(** In exact arithmetic the corrected fraction sits on the breakeven point:
    the denominator is 0 and the guard answers [None]. *)
Lemma calculate_total_mass_at_max (m_payload mass_ratio : R) :
  mass_ratio <> 0 ->
  1 - mass_ratio * (1 / mass_ratio) = 0 /\
  calculate_total_mass m_payload mass_ratio (1 / mass_ratio) = Return None.
Proof.
  intros H.
  assert (E : 1 - mass_ratio * (1 / mass_ratio) = 0) by (field; exact H).
  split; [exact E|]. apply calculate_total_mass_infeasible. lra.
Qed.

Lemma mass_ratio_nonzero (delta_v isp mr ve : R) :
  calculate_mass_ratio delta_v isp = Return (mr, ve) -> mr <> 0.
Proof.
  intros H. apply calculate_mass_ratio_returns in H as (_ & -> & _).
  apply Rgt_not_eq. apply exp_pos.
Qed.

Section Calculations.

Variable p : parameters.
Variables v_orbital mass_ratio ve : R.
Hypothesis orbital :
    calculate_orbital_velocity (orbit_altitude p) = Return v_orbital.
Hypothesis ratio :
    calculate_mass_ratio (delta_v_budget p) (specific_impulse p) = Return (mass_ratio, ve).

Let v_rotation : R := 2 * PI / 86400 * 6371000 * cos (launch_latitude p * (PI / 180)).

  (** The steps of [main_calculations] before the first mass breakdown. *)
Local Ltac calculations_prefix :=
    eapply bind_run_then; [reflexivity|]; cbv beta;
    eapply bind_run_then; [unfold call; rewrite orbital; reflexivity|]; cbv beta;
    eapply bind_run_then; [reflexivity|]; cbv beta;
    eapply bind_run_then;
      [unfold call; rewrite calculate_rotational_boost_value; reflexivity|]; cbv beta;
    eapply bind_run_then; [reflexivity|]; cbv beta;
    eapply bind_run_then; [reflexivity|]; cbv beta;
    eapply bind_run_then; [unfold call; rewrite ratio; reflexivity|]; cbv beta iota;
    eapply bind_run_then; [reflexivity|]; cbv beta;
    eapply bind_run_then; [reflexivity|]; cbv beta.

  (** A feasible first breakdown: the report follows, nothing is retried. *)
Lemma main_calculations_feasible (t : masses) (s : list line) :
    calculate_total_mass (payload_mass p) mass_ratio (structural_fraction p)
      = Return (Some t) ->
    main_calculations p s =
      mkRun s
        (calculation_events p v_orbital v_rotation mass_ratio ve
         ++ report_events p v_orbital v_rotation mass_ratio ve (structural_fraction p) t)
        (Return tt).
  Proof.
    intros Ht. destruct t as [[m0 m_structure] m_fuel]. eapply run_events.
    - unfold main_calculations. calculations_prefix.
      eapply bind_run_then; [unfold call; rewrite Ht; reflexivity|]. cbv beta iota.
      unfold main_report.
      do 4 (eapply bind_run_then; [reflexivity|]; cbv beta).
      reflexivity.
    - reflexivity.
  Qed.

  (** An infeasible first breakdown: one correction, one more call, and the
      run ends on the error message. *)
Lemma main_calculations_infeasible (s : list line) :
    calculate_total_mass (payload_mass p) mass_ratio (structural_fraction p)
      = Return None ->
    main_calculations p s =
      mkRun s
        (calculation_events p v_orbital v_rotation mass_ratio ve
         ++ correction_events p mass_ratio (1 / mass_ratio))
        (Return tt).
  Proof.
    intros Ht. pose proof (mass_ratio_nonzero _ _ _ _ ratio) as Hmr.
    eapply run_events.
    - unfold main_calculations. calculations_prefix.
      eapply bind_run_then; [unfold call; rewrite Ht; reflexivity|]. cbv beta iota.
      eapply bind_run_then; [reflexivity|]. cbv beta.
      eapply bind_run_then;
        [unfold call; rewrite (find_max_structural_fraction_value _ Hmr); reflexivity|].
      cbv beta zeta.
      eapply bind_run_then; [reflexivity|]. cbv beta.
      eapply bind_run_then;
        [unfold call;
         rewrite (proj2 (calculate_total_mass_at_max (payload_mass p) _ Hmr));
         reflexivity|].
      cbv beta iota.
      eapply bind_run_then; [reflexivity|]. cbv beta.
      reflexivity.
    - reflexivity.
  Qed.

End Calculations.

Lemma calculate_orbital_velocity_value (orbit_altitude : R) :
  -6371000 < orbit_altitude ->
  calculate_orbital_velocity orbit_altitude =
    Return (sqrt (6.67430e-11 * 5.972e24 / (6371000 + orbit_altitude))).
Proof.
  intros H. unfold calculate_orbital_velocity.
  rewrite div_nonzero by lra. simpl. unfold Py.math_sqrt.
  destruct (Rlt_dec _ 0) as [L|_]; [|reflexivity].
  exfalso. apply (Rlt_not_le _ _ L). apply Rmult_le_pos; [lra|].
  left. apply Rinv_0_lt_compat. lra.
Qed.

Lemma calls_of_app (f : fname) (evs evs' : list event) :
  calls_of f (evs ++ evs') = calls_of f evs ++ calls_of f evs'.
Proof.
  induction evs as [|e evs IH]; [reflexivity|].
  destruct e as [pr d|m|g args]; simpl; try exact IH.
  destruct (fname_eqb f g); simpl; now rewrite IH.
Qed.

Lemma calls_of_bind_le {A B : Type} (f : fname) (m : M A) (k : A -> M B)
  (s : list line) (n1 n2 n : nat) :
  (n1 + n2 <= n)%nat ->
  (length (calls_of f (out (m s))) <= n1)%nat ->
  (forall a, res (m s) = Return a ->
             (length (calls_of f (out (k a (rest (m s))))) <= n2)%nat) ->
  (length (calls_of f (out (bind m k s))) <= n)%nat.
Proof.
  intros Hn Hm Hk. unfold bind.
  destruct (res (m s)) as [a|e|] eqn:E; simpl; [|lia|lia].
  rewrite calls_of_app, length_app. specialize (Hk a eq_refl). lia.
Qed.

Lemma main_report_no_calls (f : fname) (p : parameters) (vo vr mr ve sf : R)
  (t : masses) (s : list line) :
  calls_of f (out (main_report p vo vr mr ve sf t s)) = [].
Proof. destruct t as [[m0 ms] mf]. reflexivity. Qed.

(** Whatever the parameters, [main] calls [calculate_total_mass] at most
    twice: there is no second retry. *)
Lemma main_calculations_at_most_two_calls (p : parameters) (s : list line) :
  (length (calls_of F_calculate_total_mass (out (main_calculations p s))) <= 2)%nat.
Proof.
  unfold main_calculations.
  do 6 (eapply (calls_of_bind_le _ _ _ _ 0 2);
        [lia | simpl; lia | intros ? _; cbv beta]).
  eapply (calls_of_bind_le _ _ _ _ 0 2); [lia | simpl; lia | intros [mr ve] _; cbv beta iota].
  do 2 (eapply (calls_of_bind_le _ _ _ _ 0 2);
        [lia | simpl; lia | intros ? _; cbv beta]).
  eapply (calls_of_bind_le _ _ _ _ 1 1); [lia | simpl; lia | intros [t|] _; cbv beta iota].
  - rewrite main_report_no_calls. simpl. lia.
  - do 3 (eapply (calls_of_bind_le _ _ _ _ 0 1);
          [lia | simpl; lia | intros ? _; cbv beta zeta]).
    eapply (calls_of_bind_le _ _ _ _ 1 0); [lia | simpl; lia | intros [t|] _; cbv beta iota].
    + rewrite main_report_no_calls. simpl. lia.
    + simpl. lia.
Qed.

(** C2. When the first mass breakdown is infeasible, [main] computes the
    maximum structural fraction as exactly 1 / mass_ratio, calls
    [calculate_total_mass] once more with it and never again; if that call is
    infeasible too, the run ends on the "still too high" error and shows no
    mass breakdown. *)
Theorem auto_correction_single_retry
  (p : parameters) (s : list line) (v_orbital mr ve : R) :
  calculate_orbital_velocity (orbit_altitude p) = Return v_orbital ->
  calculate_mass_ratio (delta_v_budget p) (specific_impulse p) = Return (mr, ve) ->
  calculate_total_mass (payload_mass p) mr (structural_fraction p) = Return None ->
  let r := main_calculations p s in
  find_max_structural_fraction mr = Return (1 / mr) /\
  calls_of F_find_max_structural_fraction (out r) = [[mr]] /\
  calls_of F_calculate_total_mass (out r) =
    [[payload_mass p; mr; structural_fraction p]; [payload_mass p; mr; 1 / mr]] /\
  (calculate_total_mass (payload_mass p) mr (1 / mr) = Return None ->
   res r = Return tt /\
   last (out r) (Printed MsgCalculations) = Printed MsgStillTooHigh /\
   existsb shows_result (out r) = false).
Proof.
  intros Ho Hr Ht r. subst r.
  rewrite (main_calculations_infeasible p v_orbital mr ve Ho Hr s Ht).
  pose proof (mass_ratio_nonzero _ _ _ _ Hr) as Hmr.
  split; [now apply find_max_structural_fraction_value|].
  repeat split; reflexivity.
Qed.

(** In exact arithmetic the corrected call is always infeasible: every run
    that enters the correction ends on the error message. *)
Lemma auto_correction_never_succeeds
  (p : parameters) (s : list line) (v_orbital mr ve : R) :
  calculate_orbital_velocity (orbit_altitude p) = Return v_orbital ->
  calculate_mass_ratio (delta_v_budget p) (specific_impulse p) = Return (mr, ve) ->
  calculate_total_mass (payload_mass p) mr (structural_fraction p) = Return None ->
  calculate_total_mass (payload_mass p) mr (1 / mr) = Return None /\
  last (out (main_calculations p s)) (Printed MsgCalculations) = Printed MsgStillTooHigh.
Proof.
  intros Ho Hr Ht.
  pose proof (mass_ratio_nonzero _ _ _ _ Hr) as Hmr.
  split; [apply calculate_total_mass_at_max; exact Hmr|].
  rewrite (main_calculations_infeasible p v_orbital mr ve Ho Hr s Ht). reflexivity.
Qed.

Lemma default_first_breakdown_infeasible :
  calculate_total_mass 1 (exp (9500 / (350 * 9.81))) 0.10 = Return None.
Proof.
  apply calculate_total_mass_infeasible. pose proof exp_default_bounds. lra.
Qed.

Lemma auto_correction_single_retry_witness :
  calls_of F_calculate_total_mass (out (main_calculations default_parameters [])) =
    [[1; exp (9500 / (350 * 9.81)); 0.10];
     [1; exp (9500 / (350 * 9.81)); 1 / exp (9500 / (350 * 9.81))]].
Proof.
  refine (proj1 (proj2 (proj2
    (auto_correction_single_retry default_parameters []
       (sqrt (6.67430e-11 * 5.972e24 / (6371000 + 200000)))
       (exp (9500 / (350 * 9.81))) (350 * 9.81) _ _ _)))).
  - apply calculate_orbital_velocity_value. lra.
  - apply calculate_mass_ratio_value; [lra | apply exp_no_overflow; lra].
  - exact default_first_breakdown_infeasible.
Defined.

(** ** Fuel is never the reason a run stops *)

Lemma bind_not_out_of_fuel {A B : Type} (m : M A) (k : A -> M B) (s : list line) :
  res (m s) <> OutOfFuel ->
  (forall a, res (m s) = Return a -> res (k a (rest (m s))) <> OutOfFuel) ->
  res (bind m k s) <> OutOfFuel.
Proof.
  intros Hm Hk. unfold bind.
  destruct (res (m s)) as [a|e|] eqn:E; simpl.
  - apply Hk. reflexivity.
  - discriminate.
  - contradiction.
Qed.

Lemma div_not_out_of_fuel (a b : R) : Py.div a b <> OutOfFuel.
Proof. unfold Py.div. destruct (Req_dec_T b 0); discriminate. Qed.

Lemma rbind_not_out_of_fuel {A B : Type} (r : result A) (k : A -> result B) :
  r <> OutOfFuel -> (forall a, k a <> OutOfFuel) -> rbind r k <> OutOfFuel.
Proof.
  intros Hr Hk. destruct r as [a|e|]; simpl; [apply Hk | discriminate | contradiction].
Qed.

Lemma calculate_orbital_velocity_not_out_of_fuel (orbit_altitude : R) :
  calculate_orbital_velocity orbit_altitude <> OutOfFuel.
Proof.
  unfold calculate_orbital_velocity.
  apply rbind_not_out_of_fuel; [apply div_not_out_of_fuel|]. intros q.
  apply rbind_not_out_of_fuel; [|discriminate].
  unfold Py.math_sqrt. destruct (Rlt_dec q 0); discriminate.
Qed.

Lemma calculate_mass_ratio_not_out_of_fuel (delta_v isp : R) :
  calculate_mass_ratio delta_v isp <> OutOfFuel.
Proof.
  unfold calculate_mass_ratio.
  apply rbind_not_out_of_fuel; [apply div_not_out_of_fuel|]. intros q.
  apply rbind_not_out_of_fuel; [|discriminate].
  unfold Py.math_exp. destruct (Rlt_dec Py.float_max (exp q)); discriminate.
Qed.

Lemma get_float_input_not_out_of_fuel (p : prompt) (default : R) (s : list line) :
  res (get_float_input p default s) <> OutOfFuel.
Proof. destruct s as [|[| |x] s]; discriminate. Qed.

Lemma length_tl_le {A : Type} (l : list A) : (length (tl l) <= length l)%nat.
Proof. destruct l; simpl; lia. Qed.

Lemma main_inputs_not_out_of_fuel (fuel : nat) (s : list line) :
  (length s < fuel)%nat -> res (main_inputs fuel s) <> OutOfFuel.
Proof.
  intros Hlen. unfold main_inputs.
  apply bind_not_out_of_fuel; [discriminate|]. intros _ _.
  apply bind_not_out_of_fuel; [discriminate|]. intros _ _.
  do 5 (apply bind_not_out_of_fuel;
        [apply get_float_input_not_out_of_fuel|]; intros ? _).
  apply bind_not_out_of_fuel; [|discriminate].
  apply delta_v_loop_enough_fuel.
  rewrite !get_float_input_rest. simpl rest.
  pose proof (length_tl_le s).
  pose proof (length_tl_le (tl s)).
  pose proof (length_tl_le (tl (tl s))).
  pose proof (length_tl_le (tl (tl (tl s)))).
  pose proof (length_tl_le (tl (tl (tl (tl s))))).
  lia.
Qed.

Lemma main_report_not_out_of_fuel (p : parameters) (vo vr mr ve sf : R) (t : masses)
  (s : list line) :
  res (main_report p vo vr mr ve sf t s) <> OutOfFuel.
Proof. destruct t as [[m0 ms] mf]. discriminate. Qed.

Lemma main_calculations_not_out_of_fuel (p : parameters) (s : list line) :
  res (main_calculations p s) <> OutOfFuel.
Proof.
  unfold main_calculations.
  apply bind_not_out_of_fuel; [discriminate|]. intros _ _.
  apply bind_not_out_of_fuel; [apply calculate_orbital_velocity_not_out_of_fuel|].
  intros vo _.
  apply bind_not_out_of_fuel; [discriminate|]. intros _ _.
  apply bind_not_out_of_fuel;
    [simpl; rewrite calculate_rotational_boost_value; discriminate|].
  intros vr _.
  apply bind_not_out_of_fuel; [discriminate|]. intros _ _.
  apply bind_not_out_of_fuel; [discriminate|]. intros _ _.
  apply bind_not_out_of_fuel; [apply calculate_mass_ratio_not_out_of_fuel|].
  intros [mr ve] _.
  apply bind_not_out_of_fuel; [discriminate|]. intros _ _.
  apply bind_not_out_of_fuel; [discriminate|]. intros _ _.
  apply bind_not_out_of_fuel.
  { simpl. destruct (calculate_total_mass_total (payload_mass p) mr
                       (structural_fraction p)) as [r ->]. discriminate. }
  intros [t|] _; [apply main_report_not_out_of_fuel|].
  apply bind_not_out_of_fuel; [discriminate|]. intros _ _.
  apply bind_not_out_of_fuel; [apply div_not_out_of_fuel|]. intros sf _.
  apply bind_not_out_of_fuel; [discriminate|]. intros _ _.
  apply bind_not_out_of_fuel.
  { simpl. destruct (calculate_total_mass_total (payload_mass p) mr sf) as [r ->].
    discriminate. }
  intros [t|] _; [apply main_report_not_out_of_fuel|].
  apply bind_not_out_of_fuel; discriminate.
Qed.

(** Every run of [main] ends as the script does: normally or on a Python
    exception, never for lack of fuel in the model of its loop. *)
Lemma main_not_out_of_fuel (stdin : list line) : res (main stdin) <> OutOfFuel.
Proof.
  unfold main. apply bind_not_out_of_fuel.
  - apply main_inputs_not_out_of_fuel. lia.
  - intros p _. apply main_calculations_not_out_of_fuel.
Qed.

(** ** The mass balance in every run *)










(** ** The default mission (scenario A) *)

Lemma blank_delta_v_accepted :
  delta_v_in_range (line_value Blank (default_delta_v_budget / 1000)) = true.
Proof.
  apply delta_v_in_range_iff. simpl. unfold default_delta_v_budget. lra.
Qed.

Lemma default_mass_ratio_value :
  calculate_mass_ratio 9500 350 = Return (exp (9500 / (350 * 9.81)), 3433.5).
Proof.
  rewrite calculate_mass_ratio_value by (try lra; apply exp_no_overflow; lra).
  do 2 f_equal. lra.
Qed.

(** What [main] computes from blank answers to every prompt but the fifth. *)
Lemma blank_run_mass_ratio (l5 : line) :
  let p := parameters_of Blank Blank Blank Blank l5 Blank in
  calculate_mass_ratio (delta_v_budget p) (specific_impulse p)
  = Return (exp (9500 / (350 * 9.81)), 3433.5).
Proof.
  simpl. unfold default_delta_v_budget, default_specific_impulse.
  rewrite <- default_mass_ratio_value. f_equal; lra.
Qed.

Lemma blank_run_orbital_velocity (l5 : line) :
  let p := parameters_of Blank Blank Blank Blank l5 Blank in
  calculate_orbital_velocity (orbit_altitude p)
  = Return (sqrt (6.67430e-11 * 5.972e24 / (6371000 + default_orbit_altitude))).
Proof.
  simpl. apply calculate_orbital_velocity_value. unfold default_orbit_altitude. lra.
Qed.

Lemma inverse_default_mass_ratio_bounds :
  0.0628 < 1 / exp (9500 / (350 * 9.81)) < 0.0629.
Proof.
  pose proof exp_default_bounds as [Hlo Hhi].
  set (mr := exp (9500 / (350 * 9.81))) in *.
  assert (Hpos : 0 < mr) by lra.
  split.
  - apply Rmult_lt_reg_r with mr; [exact Hpos|].
    unfold Rdiv. rewrite Rmult_assoc, Rinv_l by lra. lra.
  - apply Rmult_lt_reg_r with mr; [exact Hpos|].
    unfold Rdiv. rewrite Rmult_assoc, Rinv_l by lra. lra.
Qed.

(** C7, as the specification states it: a mass ratio of 14.15 and a
    corrected fraction of 0.0707.  Even with a tolerance of 0.1 on the mass
    ratio the script does not compute that value. *)
Lemma scenario_A_mass_ratio_not_14_15 :
  ~ (exists mr ve,
        calculate_mass_ratio 9500 350 = Return (mr, ve) /\
        approx ve 3433.5 0.05 /\
        approx mr 14.15 0.1 /\
        1 - mr * 0.10 < 0 /\
        exists f, find_max_structural_fraction mr = Return f /\ approx f 0.0707 0.001).
Proof.
  intros (mr & ve & Hr & _ & Hmr & _).
  rewrite default_mass_ratio_value in Hr. injection Hr as <- _.
  apply approx_bounds in Hmr. pose proof exp_default_bounds. lra.
Qed.

(** C7, amended.  With payload 1.0 kg, Isp 350 s, delta-v 9500 m/s and
    structural fraction 0.10 the script computes ve = 3433.5 m/s and a mass
    ratio between 15.90 and 15.92; the denominator 1 - mass_ratio * 0.10 is
    negative, the first breakdown is infeasible and the correction is
    triggered; the corrected fraction is 1 / mass_ratio, between 0.0628 and
    0.0629.  On six blank answers [main] runs exactly this and, the corrected
    call being infeasible again, ends on the error message. *)
Theorem scenario_A :
  exists mr,
    calculate_mass_ratio 9500 350 = Return (mr, 3433.5) /\
    15.90 < mr < 15.92 /\
    1 - mr * 0.10 < 0 /\
    calculate_total_mass 1.0 mr 0.10 = Return None /\
    find_max_structural_fraction mr = Return (1 / mr) /\
    0.0628 < 1 / mr < 0.0629 /\
    exists evs v_orbital v_rotation,
      let p := parameters_of Blank Blank Blank Blank Blank Blank in
      main [Blank; Blank; Blank; Blank; Blank; Blank] =
        mkRun []
          (evs ++ calculation_events p v_orbital v_rotation mr 3433.5
               ++ correction_events p mr (1 / mr))
          (Return tt).
Proof.
  exists (exp (9500 / (350 * 9.81))).
  pose proof exp_default_bounds as Hb.
  assert (Hnone : calculate_total_mass 1.0 (exp (9500 / (350 * 9.81))) 0.10 = Return None).
  { apply calculate_total_mass_infeasible. lra. }
  split; [exact default_mass_ratio_value|].
  split; [exact Hb|].
  split; [lra|].
  split; [exact Hnone|].
  split; [apply find_max_structural_fraction_value; lra|].
  split; [exact inverse_default_mass_ratio_bounds|].
  destruct (main_run Blank Blank Blank Blank Blank Blank [] blank_delta_v_accepted)
    as [evs Hrun].
  exists evs. do 2 eexists. intros p. rewrite Hrun. subst p. cbv zeta.
  rewrite (main_calculations_infeasible _ _ _ _
             (blank_run_orbital_velocity Blank) (blank_run_mass_ratio Blank) []).
  - reflexivity.
  - exact Hnone.
Qed.



(** ** Where the delta-v range is checked *)





(** ** The recomputation at the breakeven fraction *)


Section Breakeven.

Import PrimFloat.


End Breakeven.


(** * Further properties of the script *)

(** ** The orbital velocity: [calculate_orbital_velocity] *)

Lemma calculate_orbital_velocity_at_centre :
  calculate_orbital_velocity (-6371000) = Raise ZeroDivisionError.
Proof.
  unfold calculate_orbital_velocity.
  replace (6371000 + -6371000) with 0 by lra. rewrite div_zero. reflexivity.
Qed.

Lemma calculate_orbital_velocity_below_centre (orbit_altitude : R) :
  orbit_altitude < -6371000 ->
  calculate_orbital_velocity orbit_altitude = Raise ValueError.
Proof.
  intros H. unfold calculate_orbital_velocity.
  rewrite div_nonzero by lra. simpl. unfold Py.math_sqrt.
  destruct (Rlt_dec _ 0) as [_|N]; [reflexivity|].
  exfalso. apply N.
  assert (Hinv : / (6371000 + orbit_altitude) < 0) by (apply Rinv_lt_0_compat; lra).
  unfold Rdiv. nra.
Qed.

Lemma calculate_orbital_velocity_returns (orbit_altitude v : R) :
  calculate_orbital_velocity orbit_altitude = Return v ->
  -6371000 < orbit_altitude /\
  v = sqrt (6.67430e-11 * 5.972e24 / (6371000 + orbit_altitude)).
Proof.
  intros H. destruct (Rtotal_order orbit_altitude (-6371000)) as [L|[E|G]].
  - rewrite calculate_orbital_velocity_below_centre in H by exact L. discriminate.
  - subst. rewrite calculate_orbital_velocity_at_centre in H. discriminate.
  - rewrite calculate_orbital_velocity_value in H by exact G.
    injection H as <-. split; [exact G|reflexivity].
Qed.

Lemma gravitational_parameter_over_radius_pos (orbit_altitude : R) :
  -6371000 < orbit_altitude ->
  0 < 6.67430e-11 * 5.972e24 / (6371000 + orbit_altitude).
Proof.
  intros H. apply Rdiv_lt_0_compat; lra.
Qed.

(** X1. [calculate_orbital_velocity] validates nothing: at altitude -6371000
    (orbital radius 0) it raises [ZeroDivisionError], below that (negative
    radius) [math.sqrt] raises [ValueError], and above it the result is
    sqrt(G M / (R_E + altitude)). *)
Theorem calculate_orbital_velocity_outcomes (orbit_altitude : R) :
  (orbit_altitude = -6371000 ->
   calculate_orbital_velocity orbit_altitude = Raise ZeroDivisionError) /\
  (orbit_altitude < -6371000 ->
   calculate_orbital_velocity orbit_altitude = Raise ValueError) /\
  (-6371000 < orbit_altitude ->
   calculate_orbital_velocity orbit_altitude =
     Return (sqrt (6.67430e-11 * 5.972e24 / (6371000 + orbit_altitude)))).
Proof.
  repeat split.
  - intros ->. exact calculate_orbital_velocity_at_centre.
  - apply calculate_orbital_velocity_below_centre.
  - apply calculate_orbital_velocity_value.
Qed.





Lemma sqrt_between (x lo hi : R) :
  0 <= lo -> lo * lo < x -> x < hi * hi -> 0 <= hi -> lo < sqrt x < hi.
Proof.
  intros Hlo Hl Hh Hhi.
  assert (Hx : 0 <= x) by nra.
  pose proof (sqrt_pos x) as Hs. pose proof (sqrt_sqrt x Hx) as Hss.
  split.
  - destruct (Rlt_le_dec lo (sqrt x)) as [|Hle]; [assumption|]. nra.
  - destruct (Rlt_le_dec (sqrt x) hi) as [|Hle]; [assumption|]. nra.
Qed.

(** X4. At altitude 0 the velocity is between 7909 and 7910 m/s, and no
    non-negative altitude gives more than that surface value. *)
Theorem calculate_orbital_velocity_bounded (orbit_altitude v : R) :
  0 <= orbit_altitude ->
  calculate_orbital_velocity orbit_altitude = Return v ->
  exists v0,
    calculate_orbital_velocity 0 = Return v0 /\
    7909 < v0 < 7910 /\ 0 < v <= v0.
Proof.
  intros Halt H.
  apply calculate_orbital_velocity_returns in H as [_ ->].
  eexists. split; [apply calculate_orbital_velocity_value; lra|]. split.
  - apply sqrt_between; lra.
  - split.
    + apply sqrt_lt_R0. apply gravitational_parameter_over_radius_pos. lra.
    + apply sqrt_le_1_alt. unfold Rdiv. apply Rmult_le_compat_l; [lra|].
      apply Rinv_le_contravar; lra.
Qed.

Lemma calculate_orbital_velocity_bounded_witness :
  exists v0,
    calculate_orbital_velocity 0 = Return v0 /\
    7909 < v0 < 7910 /\
    0 < sqrt (6.67430e-11 * 5.972e24 / (6371000 + 200000)) <= v0.
Proof.
  apply (calculate_orbital_velocity_bounded 200000).
  - lra.
  - apply calculate_orbital_velocity_value. lra.
Defined.

(** ** More on the mass ratio and the mass breakdown *)











(** ** More on the rotational boost *)




(** ** The input phase of [main] *)

Lemma get_float_input_run_events (p : prompt) (default : R) (l : line) (s : list line) :
  exists evs,
    get_float_input p default (l :: s) = mkRun s evs (Return (line_value l default)) /\
    forallb input_event evs = true /\
    filter is_range_message evs = [].
Proof.
  destruct l; eexists; repeat split.
Qed.

Lemma delta_v_in_range_false (x : R) : out_of_range x -> delta_v_in_range x = false.
Proof.
  intros H. destruct (delta_v_in_range x) eqn:E; [|reflexivity].
  apply delta_v_in_range_iff in E. contradiction.
Qed.

(** The loop passes over the answers that are out of range, one message
    each, and stops at the first acceptable one. *)
Lemma delta_v_loop_skips (rejected : list R) :
  forall (fuel : nat) (l : line) (s : list line),
    Forall out_of_range rejected ->
    delta_v_in_range (line_value l (default_delta_v_budget / 1000)) = true ->
    (length rejected < fuel)%nat ->
    exists evs,
      delta_v_loop fuel (map Number rejected ++ l :: s) =
        mkRun s evs (Return (line_value l (default_delta_v_budget / 1000) * 1000)) /\
      forallb input_event evs = true /\
      length (filter is_range_message evs) = length rejected.
Proof.
  induction rejected as [|x rejected IH]; intros fuel l s Hrej Hl Hfuel.
  - destruct fuel as [|fuel]; [simpl in Hfuel; lia|].
    simpl app. simpl delta_v_loop.
    destruct (get_float_input_run_events PromptDeltaV (default_delta_v_budget / 1000) l s)
      as (evs & Hg & Hin & Hrm).
    exists ([] ++ evs ++ []). split; [|split].
    + eapply bind_run_then; [unfold lift; rewrite default_delta_v_div; reflexivity|].
      eapply bind_run_then; [exact Hg|]. cbv beta. rewrite Hl. reflexivity.
    + simpl. rewrite app_nil_r. exact Hin.
    + simpl. rewrite app_nil_r, Hrm. reflexivity.
  - destruct fuel as [|fuel]; [simpl in Hfuel; lia|].
    inversion Hrej as [|x' r' Hx Hrej']; subst.
    destruct (IH fuel l s Hrej' Hl ltac:(simpl in Hfuel; lia)) as (evs & Hrun & Hin & Hlen).
    simpl map. simpl app. simpl delta_v_loop.
    exists ([] ++ [Prompted PromptDeltaV (default_delta_v_budget / 1000)]
               ++ [Printed MsgDeltaVRange] ++ evs).
    split; [|split].
    + eapply bind_run_then; [unfold lift; rewrite default_delta_v_div; reflexivity|].
      eapply bind_run_then; [reflexivity|]. cbv beta.
      rewrite (delta_v_in_range_false _ Hx).
      eapply bind_run_then; [reflexivity|]. exact Hrun.
    + simpl. exact Hin.
    + simpl. rewrite Hlen. reflexivity.
Qed.

(** When every answer is out of range the input runs out. *)
Lemma delta_v_loop_eof (rejected : list R) :
  forall (fuel : nat),
    Forall out_of_range rejected ->
    (length rejected < fuel)%nat ->
    exists evs,
      delta_v_loop fuel (map Number rejected) = mkRun [] evs (Raise EOFError) /\
      length (filter is_range_message evs) = length rejected.
Proof.
  induction rejected as [|x rejected IH]; intros fuel Hrej Hfuel.
  - destruct fuel as [|fuel]; [simpl in Hfuel; lia|].
    simpl map. simpl delta_v_loop. eexists. split.
    + eapply bind_run_then; [unfold lift; rewrite default_delta_v_div; reflexivity|].
      eapply bind_raise. apply get_float_input_eof.
    + reflexivity.
  - destruct fuel as [|fuel]; [simpl in Hfuel; lia|].
    inversion Hrej as [|x' r' Hx Hrej']; subst.
    destruct (IH fuel Hrej' ltac:(simpl in Hfuel; lia)) as (evs & Hrun & Hlen).
    simpl map. simpl delta_v_loop.
    exists ([] ++ [Prompted PromptDeltaV (default_delta_v_budget / 1000)]
               ++ [Printed MsgDeltaVRange] ++ evs).
    split.
    + eapply bind_run_then; [unfold lift; rewrite default_delta_v_div; reflexivity|].
      eapply bind_run_then; [reflexivity|]. cbv beta.
      rewrite (delta_v_in_range_false _ Hx).
      eapply bind_run_then; [reflexivity|]. exact Hrun.
    + simpl. rewrite Hlen. reflexivity.
Qed.

(** X12. The delta-v loop of [main]: typed budgets outside [9.3, 10.0] are
    passed over with one message each; the first acceptable answer [l] ends
    the loop with 1000 times its value (a blank or malformed line counts as
    the default 9.5) and the lines after it stay unread; when every line is a
    rejected budget the loop ends in [EOFError]. *)
Theorem delta_v_loop_outcomes (rejected : list R) (fuel : nat) :
  Forall out_of_range rejected ->
  (length rejected < fuel)%nat ->
  (forall l s,
      delta_v_in_range (line_value l (default_delta_v_budget / 1000)) = true ->
      exists evs,
        delta_v_loop fuel (map Number rejected ++ l :: s) =
          mkRun s evs (Return (line_value l (default_delta_v_budget / 1000) * 1000)) /\
        length (filter is_range_message evs) = length rejected) /\
  (forall s, exists evs,
      delta_v_loop fuel (map Number rejected ++ Blank :: s) =
        mkRun s evs (Return 9500)) /\
  (exists evs,
      delta_v_loop fuel (map Number rejected) = mkRun [] evs (Raise EOFError) /\
      length (filter is_range_message evs) = length rejected).
Proof.
  intros Hrej Hfuel. split; [|split].
  - intros l s Hl.
    destruct (delta_v_loop_skips rejected fuel l s Hrej Hl Hfuel) as (evs & H & _ & Hn).
    exists evs. split; assumption.
  - intros s.
    destruct (delta_v_loop_skips rejected fuel Blank s Hrej blank_delta_v_accepted Hfuel)
      as (evs & H & _ & _).
    exists evs. rewrite H. do 2 f_equal. simpl. unfold default_delta_v_budget. lra.
  - now apply delta_v_loop_eof.
Qed.

Lemma delta_v_loop_outcomes_witness :
  exists evs,
    delta_v_loop 3 (map Number [9.2; 10.5] ++ Number 9.3 :: [Blank]) =
      mkRun [Blank] evs (Return (9.3 * 1000)) /\
    length (filter is_range_message evs) = 2%nat.
Proof.
  refine (proj1 (delta_v_loop_outcomes [9.2; 10.5] 3 _ _) (Number 9.3) [Blank] _).
  - repeat constructor; unfold out_of_range; lra.
  - simpl. lia.
  - apply delta_v_in_range_iff. simpl. lra.
Defined.

Lemma main_inputs_skips (fuel : nat) (l1 l2 l3 l4 l5 l6 : line) (rejected : list R)
  (s : list line) :
  Forall out_of_range rejected ->
  delta_v_in_range (line_value l6 (default_delta_v_budget / 1000)) = true ->
  (length rejected < fuel)%nat ->
  exists evs,
    main_inputs fuel (l1 :: l2 :: l3 :: l4 :: l5 :: map Number rejected ++ l6 :: s) =
      mkRun s evs (Return (parameters_of l1 l2 l3 l4 l5 l6)) /\
    forallb input_event evs = true /\
    length (filter is_range_message evs) = length rejected.
Proof.
  intros Hrej Hl Hfuel. unfold main_inputs.
  set (tail := map Number rejected ++ l6 :: s).
  destruct (get_float_input_run_events PromptPayload default_payload l1
              (l2 :: l3 :: l4 :: l5 :: tail)) as (e1 & H1 & I1 & F1).
  destruct (get_float_input_run_events PromptSpecificImpulse default_specific_impulse l2
              (l3 :: l4 :: l5 :: tail)) as (e2 & H2 & I2 & F2).
  destruct (get_float_input_run_events PromptLatitude default_launch_latitude l3
              (l4 :: l5 :: tail)) as (e3 & H3 & I3 & F3).
  destruct (get_float_input_run_events PromptAltitude default_orbit_altitude l4
              (l5 :: tail)) as (e4 & H4 & I4 & F4).
  destruct (get_float_input_run_events PromptStructuralFraction
              default_structural_fraction l5 tail) as (e5 & H5 & I5 & F5).
  destruct (delta_v_loop_skips rejected fuel l6 s Hrej Hl Hfuel) as (e6 & H6 & I6 & F6).
  fold tail in H6.
  exists ([Printed MsgBanner] ++ [Printed MsgEnterParameters]
            ++ e1 ++ e2 ++ e3 ++ e4 ++ e5 ++ e6 ++ []).
  split; [|split].
  - eapply bind_run_then; [reflexivity|].
    eapply bind_run_then; [reflexivity|].
    eapply bind_run_then; [exact H1|].
    eapply bind_run_then; [exact H2|].
    eapply bind_run_then; [exact H3|].
    eapply bind_run_then; [exact H4|].
    eapply bind_run_then; [exact H5|].
    eapply bind_run_then; [exact H6|].
    reflexivity.
  - simpl. rewrite !forallb_app, I1, I2, I3, I4, I5, I6. reflexivity.
  - simpl. rewrite !filter_app, F1, F2, F3, F4, F5. simpl.
    rewrite app_nil_r. exact F6.
Qed.

(** X13. The input phase of [main].  From five answers, any number of typed
    delta-v budgets outside [9.3, 10.0] and one acceptable answer, [main]
    runs the calculations on the typed numbers, a blank or malformed answer
    standing for the default of its prompt and the budget converted to m/s;
    it prints one range message per rejected budget, and before the
    calculations start it has called no calculation function. *)
Theorem main_input_phase (l1 l2 l3 l4 l5 l6 : line) (rejected : list R)
  (s : list line) :
  Forall out_of_range rejected ->
  delta_v_in_range (line_value l6 (default_delta_v_budget / 1000)) = true ->
  exists evs,
    main (l1 :: l2 :: l3 :: l4 :: l5 :: map Number rejected ++ l6 :: s) =
      (let r := main_calculations (parameters_of l1 l2 l3 l4 l5 l6) s in
       mkRun (rest r) (evs ++ out r) (res r)) /\
    forallb input_event evs = true /\
    length (filter is_range_message evs) = length rejected.
Proof.
  intros Hrej Hl. unfold main.
  set (stdin := l1 :: l2 :: l3 :: l4 :: l5 :: map Number rejected ++ l6 :: s).
  assert (Hfuel : (length rejected < S (length stdin))%nat).
  { unfold stdin. simpl. rewrite length_app, length_map. lia. }
  destruct (main_inputs_skips (S (length stdin)) l1 l2 l3 l4 l5 l6 rejected s
              Hrej Hl Hfuel) as (evs & H & Hin & Hn).
  fold stdin in H. exists evs. split; [|split; assumption].
  rewrite (bind_run _ _ _ _ _ _ H). reflexivity.
Qed.

Lemma main_input_phase_witness :
  exists evs,
    main (Number 2 :: Malformed :: Blank :: Blank :: Number 0.05
            :: map Number [5; 11] ++ Number 10 :: []) =
      (let r := main_calculations
                  (parameters_of (Number 2) Malformed Blank Blank (Number 0.05)
                     (Number 10)) [] in
       mkRun (rest r) (evs ++ out r) (res r)) /\
    forallb input_event evs = true /\
    length (filter is_range_message evs) = 2%nat.
Proof.
  apply (main_input_phase (Number 2) Malformed Blank Blank (Number 0.05) (Number 10)
           [5; 11] []).
  - repeat constructor; unfold out_of_range; lra.
  - apply delta_v_in_range_iff. simpl. lra.
Defined.

(** Reading [k] answers and then finding the input empty. *)
Lemma delta_v_loop_no_input (fuel : nat) :
  exists evs,
    delta_v_loop (S fuel) [] = mkRun [] evs (Raise EOFError) /\
    forallb input_event evs = true.
Proof.
  simpl delta_v_loop. eexists. split.
  - eapply bind_run_then; [unfold lift; rewrite default_delta_v_div; reflexivity|].
    eapply bind_raise. apply get_float_input_eof.
  - reflexivity.
Qed.

Lemma main_inputs_too_few_lines (fuel : nat) (s : list line) :
  (length s < 6)%nat ->
  exists evs,
    main_inputs (S fuel) s = mkRun [] evs (Raise EOFError) /\
    forallb input_event evs = true.
Proof.
  intros Hlen. unfold main_inputs.
  destruct s as [|l1 s].
  { eexists. split.
    - eapply bind_run_then; [reflexivity|]. eapply bind_run_then; [reflexivity|].
      eapply bind_raise. apply get_float_input_eof.
    - reflexivity. }
  destruct (get_float_input_run_events PromptPayload default_payload l1 s)
    as (e1 & H1 & I1 & _).
  destruct s as [|l2 s].
  { exists ([Printed MsgBanner] ++ [Printed MsgEnterParameters] ++ e1
              ++ [Prompted PromptSpecificImpulse default_specific_impulse]).
    split.
    - eapply bind_run_then; [reflexivity|]. eapply bind_run_then; [reflexivity|].
      eapply bind_run_then; [exact H1|].
      eapply bind_raise. apply get_float_input_eof.
    - simpl. rewrite !forallb_app, I1. reflexivity. }
  destruct (get_float_input_run_events PromptSpecificImpulse default_specific_impulse l2 s)
    as (e2 & H2 & I2 & _).
  destruct s as [|l3 s].
  { exists ([Printed MsgBanner] ++ [Printed MsgEnterParameters] ++ e1 ++ e2
              ++ [Prompted PromptLatitude default_launch_latitude]).
    split.
    - eapply bind_run_then; [reflexivity|]. eapply bind_run_then; [reflexivity|].
      eapply bind_run_then; [exact H1|]. eapply bind_run_then; [exact H2|].
      eapply bind_raise. apply get_float_input_eof.
    - simpl. rewrite !forallb_app, I1, I2. reflexivity. }
  destruct (get_float_input_run_events PromptLatitude default_launch_latitude l3 s)
    as (e3 & H3 & I3 & _).
  destruct s as [|l4 s].
  { exists ([Printed MsgBanner] ++ [Printed MsgEnterParameters] ++ e1 ++ e2 ++ e3
              ++ [Prompted PromptAltitude default_orbit_altitude]).
    split.
    - eapply bind_run_then; [reflexivity|]. eapply bind_run_then; [reflexivity|].
      eapply bind_run_then; [exact H1|]. eapply bind_run_then; [exact H2|].
      eapply bind_run_then; [exact H3|].
      eapply bind_raise. apply get_float_input_eof.
    - simpl. rewrite !forallb_app, I1, I2, I3. reflexivity. }
  destruct (get_float_input_run_events PromptAltitude default_orbit_altitude l4 s)
    as (e4 & H4 & I4 & _).
  destruct s as [|l5 s].
  { exists ([Printed MsgBanner] ++ [Printed MsgEnterParameters] ++ e1 ++ e2 ++ e3 ++ e4
              ++ [Prompted PromptStructuralFraction default_structural_fraction]).
    split.
    - eapply bind_run_then; [reflexivity|]. eapply bind_run_then; [reflexivity|].
      eapply bind_run_then; [exact H1|]. eapply bind_run_then; [exact H2|].
      eapply bind_run_then; [exact H3|]. eapply bind_run_then; [exact H4|].
      eapply bind_raise. apply get_float_input_eof.
    - simpl. rewrite !forallb_app, I1, I2, I3, I4. reflexivity. }
  destruct (get_float_input_run_events PromptStructuralFraction
              default_structural_fraction l5 s) as (e5 & H5 & I5 & _).
  destruct s as [|l6 s]; [|simpl in Hlen; lia].
  destruct (delta_v_loop_no_input fuel) as (e6 & H6 & I6).
  exists ([Printed MsgBanner] ++ [Printed MsgEnterParameters] ++ e1 ++ e2 ++ e3 ++ e4
            ++ e5 ++ e6).
  split.
  - eapply bind_run_then; [reflexivity|]. eapply bind_run_then; [reflexivity|].
    eapply bind_run_then; [exact H1|]. eapply bind_run_then; [exact H2|].
    eapply bind_run_then; [exact H3|]. eapply bind_run_then; [exact H4|].
    eapply bind_run_then; [exact H5|].
    eapply bind_raise. exact H6.
  - simpl. rewrite !forallb_app, I1, I2, I3, I4, I5, I6. reflexivity.
Qed.

(** X14. With fewer than six lines of input [main] ends in [EOFError]; it has
    then read every line and called no calculation function. *)
Theorem main_too_few_lines (stdin : list line) :
  (length stdin < 6)%nat ->
  res (main stdin) = Raise EOFError /\
  rest (main stdin) = [] /\
  forallb input_event (out (main stdin)) = true.
Proof.
  intros Hlen.
  destruct (main_inputs_too_few_lines (length stdin) stdin Hlen) as (evs & H & Hin).
  unfold main. rewrite (bind_raise _ _ _ _ _ _ H). simpl.
  repeat split. exact Hin.
Qed.

Lemma main_too_few_lines_witness :
  res (main [Number 2; Blank; Malformed]) = Raise EOFError /\
  rest (main [Number 2; Blank; Malformed]) = [] /\
  forallb input_event (out (main [Number 2; Blank; Malformed])) = true.
Proof.
  apply (main_too_few_lines [Number 2; Blank; Malformed]). simpl. lia.
Defined.

(** ** The calculations of [main]: how a run ends *)

Lemma main_calculations_orbital_raises (p : parameters) (s : list line) (e : exn) :
  calculate_orbital_velocity (orbit_altitude p) = Raise e ->
  main_calculations p s =
    mkRun s
      [Printed MsgCalculations; Called F_calculate_orbital_velocity [orbit_altitude p]]
      (Raise e).
Proof.
  intros H. eapply run_events.
  - unfold main_calculations.
    eapply bind_run_then; [reflexivity|]. cbv beta.
    eapply bind_raise. unfold call. rewrite H. reflexivity.
  - reflexivity.
Qed.

Lemma main_calculations_ratio_raises (p : parameters) (s : list line)
  (v_orbital : R) (e : exn) :
  calculate_orbital_velocity (orbit_altitude p) = Return v_orbital ->
  calculate_mass_ratio (delta_v_budget p) (specific_impulse p) = Raise e ->
  main_calculations p s =
    mkRun s
      [Printed MsgCalculations;
       Called F_calculate_orbital_velocity [orbit_altitude p];
       Printed (MsgOrbitalVelocity v_orbital);
       Called F_calculate_rotational_boost [launch_latitude p];
       Printed (MsgRotationalBoost (launch_latitude p)
                  (2 * PI / 86400 * 6371000 * cos (launch_latitude p * (PI / 180))));
       Printed (MsgDeltaVBudget (delta_v_budget p));
       Called F_calculate_mass_ratio [delta_v_budget p; specific_impulse p]]
      (Raise e).
Proof.
  intros Ho Hr. eapply run_events.
  - unfold main_calculations.
    eapply bind_run_then; [reflexivity|]. cbv beta.
    eapply bind_run_then; [unfold call; rewrite Ho; reflexivity|]. cbv beta.
    eapply bind_run_then; [reflexivity|]. cbv beta.
    eapply bind_run_then;
      [unfold call; rewrite calculate_rotational_boost_value; reflexivity|]. cbv beta.
    eapply bind_run_then; [reflexivity|]. cbv beta.
    eapply bind_run_then; [reflexivity|]. cbv beta.
    eapply bind_raise. unfold call. rewrite Hr. reflexivity.
  - reflexivity.
Qed.

(** The four ways the calculations can go. *)
Lemma main_calculations_shape (p : parameters) (s : list line) :
  (exists e evs,
      main_calculations p s = mkRun s evs (Raise e) /\
      existsb shows_result evs = false /\
      forall m, In (Printed m) evs ->
                match m with MsgWarning _ | MsgNotes _ _ | MsgStillTooHigh => False
                           | _ => True end)
  \/ (exists vo vr mr ve t,
         calculate_total_mass (payload_mass p) mr (structural_fraction p)
           = Return (Some t) /\
         main_calculations p s =
           mkRun s (calculation_events p vo vr mr ve
                    ++ report_events p vo vr mr ve (structural_fraction p) t)
             (Return tt))
  \/ (exists vo vr mr ve,
         main_calculations p s =
           mkRun s (calculation_events p vo vr mr ve
                    ++ correction_events p mr (1 / mr))
             (Return tt)).
Proof.
  destruct (calculate_orbital_velocity (orbit_altitude p)) as [vo|e|] eqn:Ho.
  - destruct (calculate_mass_ratio (delta_v_budget p) (specific_impulse p))
      as [[mr ve]|e|] eqn:Hr.
    + destruct (calculate_total_mass_total (payload_mass p) mr (structural_fraction p))
        as [[t|] Ht].
      * right. left. exists vo. eexists. exists mr, ve, t. split; [exact Ht|].
        exact (main_calculations_feasible p vo mr ve Ho Hr t s Ht).
      * right. right. exists vo. eexists. exists mr, ve.
        exact (main_calculations_infeasible p vo mr ve Ho Hr s Ht).
    + left. exists e. eexists. split; [exact (main_calculations_ratio_raises p s vo e Ho Hr)|].
      split; [reflexivity|].
      intros m Hin. simpl in Hin.
      repeat (destruct Hin as [Hin|Hin]; [try discriminate; injection Hin as <-; exact I|]).
      contradiction.
    + exfalso. exact (calculate_mass_ratio_not_out_of_fuel _ _ Hr).
  - left. exists e. eexists. split; [exact (main_calculations_orbital_raises p s e Ho)|].
    split; [reflexivity|].
    intros m Hin. simpl in Hin.
    repeat (destruct Hin as [Hin|Hin]; [try discriminate; injection Hin as <-; exact I|]).
    contradiction.
  - exfalso. exact (calculate_orbital_velocity_not_out_of_fuel _ Ho).
Qed.



(** X16. A feasible first breakdown is final: [calculate_total_mass] is
    called once, [find_max_structural_fraction] never, no warning is printed,
    the summary shows that breakdown and the run ends normally on the notes,
    which name the structural fraction as it was given. *)
Theorem feasible_run_single_call
  (p : parameters) (s : list line) (v_orbital mr ve m0 m_structure m_fuel : R) :
  calculate_orbital_velocity (orbit_altitude p) = Return v_orbital ->
  calculate_mass_ratio (delta_v_budget p) (specific_impulse p) = Return (mr, ve) ->
  calculate_total_mass (payload_mass p) mr (structural_fraction p)
    = Return (Some (m0, m_structure, m_fuel)) ->
  let r := main_calculations p s in
  res r = Return tt /\
  calls_of F_calculate_total_mass (out r)
    = [[payload_mass p; mr; structural_fraction p]] /\
  calls_of F_find_max_structural_fraction (out r) = [] /\
  (forall sf, ~ In (Printed (MsgWarning sf)) (out r)) /\
  In (Printed (MsgSummary (payload_mass p) m_structure m_fuel m0 (delta_v_budget p)
                 mr ve v_orbital
                 (2 * PI / 86400 * 6371000 * cos (launch_latitude p * (PI / 180)))))
     (out r) /\
  last (out r) (Printed MsgCalculations)
    = Printed (MsgNotes default_structural_fraction (structural_fraction p)).
Proof.
  intros Ho Hr Ht r. subst r.
  rewrite (main_calculations_feasible p v_orbital mr ve Ho Hr _ s Ht).
  repeat split.
  - intros sf Hin. simpl in Hin.
    repeat (destruct Hin as [Hin|Hin]; [discriminate|]). contradiction.
  - simpl. do 13 right. left. reflexivity.
Qed.

Lemma feasible_run_single_call_witness :
  calls_of F_calculate_total_mass
    (out (main_calculations (mkParameters 1 350 45 200000 0.05 9500) []))
  = [[1; exp (9500 / (350 * 9.81)); 0.05]].
Proof.
  assert (HD : 0 < 1 - exp (9500 / (350 * 9.81)) * 0.05).
  { pose proof exp_default_bounds. lra. }
  refine (proj1 (proj2
    (feasible_run_single_call (mkParameters 1 350 45 200000 0.05 9500) []
       (sqrt (6.67430e-11 * 5.972e24 / (6371000 + 200000)))
       (exp (9500 / (350 * 9.81))) (350 * 9.81) _ _ _ _ _ _))).
  - apply calculate_orbital_velocity_value. lra.
  - apply calculate_mass_ratio_value; [lra | apply exp_no_overflow; lra].
  - apply (calculate_total_mass_feasible 1 _ 0.05 HD).
Defined.

(** ** Whole runs of [main] *)

Lemma get_float_input_input_events (p : prompt) (default : R) (s : list line) :
  Forall (fun e => input_event e = true) (out (get_float_input p default s)).
Proof.
  destruct s as [|[| |x] s]; simpl; repeat constructor.
Qed.

Lemma delta_v_loop_input_events (fuel : nat) (s : list line) :
  Forall (fun e => input_event e = true) (out (delta_v_loop fuel s)).
Proof.
  revert s. induction fuel as [|fuel IH]; intros s; [constructor|].
  simpl delta_v_loop.
  apply Forall_out_bind; [constructor|]. intros d _.
  apply Forall_out_bind; [apply get_float_input_input_events|]. intros v _.
  destruct (delta_v_in_range v); [constructor|].
  apply Forall_out_bind; [repeat constructor|]. intros _ _. apply IH.
Qed.

Lemma main_inputs_input_events (fuel : nat) (s : list line) :
  forallb input_event (out (main_inputs fuel s)) = true.
Proof.
  apply forallb_forall. apply Forall_forall. unfold main_inputs.
  apply Forall_out_bind; [repeat constructor|]. intros _ _.
  apply Forall_out_bind; [repeat constructor|]. intros _ _.
  do 5 (apply Forall_out_bind; [apply get_float_input_input_events|]; intros ? _).
  apply Forall_out_bind; [apply delta_v_loop_input_events|]. intros ? _.
  constructor.
Qed.

(** A run of [main] is its input phase, followed or not by the calculations. *)
Lemma main_out_cases (stdin : list line) :
  (exists e,
      res (main stdin) = Raise e /\
      forallb input_event (out (main stdin)) = true)
  \/ (exists p s evs,
         main stdin =
           (let r := main_calculations p s in mkRun (rest r) (evs ++ out r) (res r)) /\
         forallb input_event evs = true).
Proof.
  unfold main.
  pose proof (main_inputs_input_events (S (length stdin)) stdin) as Hin.
  pose proof (main_inputs_not_out_of_fuel (S (length stdin)) stdin ltac:(lia)) as Hfuel.
  destruct (main_inputs (S (length stdin)) stdin) as [s evs r] eqn:E.
  simpl in Hin, Hfuel. destruct r as [p|e|].
  - right. exists p, s, evs. split; [|exact Hin].
    rewrite (bind_run _ _ _ _ _ _ E). reflexivity.
  - left. exists e. rewrite (bind_raise _ _ _ _ _ _ E). simpl. split; [reflexivity|exact Hin].
  - contradiction.
Qed.

Lemma input_events_show_no_result (evs : list event) :
  forallb input_event evs = true -> existsb shows_result evs = false.
Proof.
  induction evs as [|e evs IH]; [reflexivity|]. simpl.
  intros H. apply andb_true_iff in H as [He Hevs]. rewrite (IH Hevs).
  destruct e as [pr d|m|f args]; [reflexivity| |discriminate].
  destruct m; try discriminate; reflexivity.
Qed.

Lemma input_events_no_calls (f : fname) (evs : list event) :
  forallb input_event evs = true -> calls_of f evs = [].
Proof.
  induction evs as [|e evs IH]; [reflexivity|]. simpl.
  intros H. apply andb_true_iff in H as [He Hevs].
  destruct e as [pr d|m|g args]; [now apply IH|now apply IH|discriminate].
Qed.

Lemma input_events_not_printed (evs : list event) (m : message) :
  forallb input_event evs = true -> In (Printed m) evs ->
  input_event (Printed m) = true.
Proof.
  intros H Hin. rewrite forallb_forall in H. now apply H.
Qed.

Lemma last_app_cons {A : Type} (l l' : list A) (a d : A) :
  last (l ++ a :: l') d = last (a :: l') d.
Proof.
  induction l as [|x l IH]; [reflexivity|].
  simpl app. rewrite <- IH. simpl. destruct (l ++ a :: l') eqn:E; [|reflexivity].
  destruct l; discriminate.
Qed.

(** X17. In exact arithmetic the automatic correction never rescues a run:
    whatever is typed, a run of [main] that prints the warning ends normally
    on the "still too high" error and shows no mass breakdown. *)
Theorem warning_ends_in_error (stdin : list line) (sf : R) :
  In (Printed (MsgWarning sf)) (out (main stdin)) ->
  res (main stdin) = Return tt /\
  last (out (main stdin)) (Printed MsgBanner) = Printed MsgStillTooHigh /\
  existsb shows_result (out (main stdin)) = false.
Proof.
  intros Hin. destruct (main_out_cases stdin) as [(e & _ & Hev)|(p & s & evs & Hrun & Hev)].
  - pose proof (input_events_not_printed _ _ Hev Hin). discriminate.
  - rewrite Hrun in *. cbv zeta in *.
    destruct (main_calculations_shape p s)
      as [(e & cevs & Hc & _ & Hno)|[(vo & vr & mr & ve & t & _ & Hc)|(vo & vr & mr & ve & Hc)]];
      rewrite Hc in *; cbn [out res rest] in *;
      (apply in_app_or in Hin as [Hin|Hin];
       [pose proof (input_events_not_printed _ _ Hev Hin); discriminate|]).
    + exact (False_ind _ (Hno _ Hin)).
    + exfalso. destruct t as [[m0 ms] mf]. simpl in Hin.
      repeat (destruct Hin as [Hin|Hin]; [discriminate|]). contradiction.
    + split; [reflexivity|]. split.
      * unfold calculation_events. simpl app. rewrite last_app_cons. reflexivity.
      * rewrite existsb_app, (input_events_show_no_result _ Hev). reflexivity.
Qed.

Lemma default_run_prints_warning :
  In (Printed (MsgWarning default_structural_fraction))
     (out (main [Blank; Blank; Blank; Blank; Blank; Blank])).
Proof.
  destruct (main_run Blank Blank Blank Blank Blank Blank [] blank_delta_v_accepted)
    as [evs Hrun].
  rewrite Hrun. cbv zeta.
  rewrite (main_calculations_infeasible _ _ _ _
             (blank_run_orbital_velocity Blank) (blank_run_mass_ratio Blank) []).
  - simpl out. apply in_or_app. right. simpl. do 10 right. left. reflexivity.
  - simpl. apply calculate_total_mass_infeasible.
    unfold default_structural_fraction. pose proof exp_default_bounds. lra.
Qed.

Lemma warning_ends_in_error_witness :
  res (main [Blank; Blank; Blank; Blank; Blank; Blank]) = Return tt /\
  last (out (main [Blank; Blank; Blank; Blank; Blank; Blank])) (Printed MsgBanner)
    = Printed MsgStillTooHigh /\
  existsb shows_result (out (main [Blank; Blank; Blank; Blank; Blank; Blank])) = false.
Proof.
  exact (warning_ends_in_error _ _ default_run_prints_warning).
Defined.

(** X18. Whatever is typed, the notes that close a report give 0.10, the
    default, as the "original structural fraction entered"; and in exact
    arithmetic the fraction they call adjusted is the one the only call of
    [calculate_total_mass] was made with: it is never a corrected one. *)
Theorem notes_name_the_default (stdin : list line) (d sf : R) :
  In (Printed (MsgNotes d sf)) (out (main stdin)) ->
  d = 0.10 /\
  (exists m_payload mr,
      calls_of F_calculate_total_mass (out (main stdin)) = [[m_payload; mr; sf]]) /\
  calls_of F_find_max_structural_fraction (out (main stdin)) = [].
Proof.
  intros Hin. destruct (main_out_cases stdin) as [(e & _ & Hev)|(p & s & evs & Hrun & Hev)].
  - pose proof (input_events_not_printed _ _ Hev Hin). discriminate.
  - rewrite Hrun in *. cbv zeta in *.
    destruct (main_calculations_shape p s)
      as [(e & cevs & Hc & _ & Hno)|[(vo & vr & mr & ve & t & _ & Hc)|(vo & vr & mr & ve & Hc)]];
      rewrite Hc in *; cbn [out res rest] in *;
      (apply in_app_or in Hin as [Hin|Hin];
       [pose proof (input_events_not_printed _ _ Hev Hin); discriminate|]);
      rewrite !calls_of_app, !(input_events_no_calls _ _ Hev); simpl app.
    + exact (False_ind _ (Hno _ Hin)).
    + destruct t as [[m0 ms] mf]. simpl in Hin.
      repeat (destruct Hin as [Hin|Hin]; [try discriminate|]); [|contradiction].
      injection Hin as <- <-.
      split; [reflexivity|]. split; [|reflexivity].
      exists (payload_mass p), mr. reflexivity.
    + exfalso. simpl in Hin.
      repeat (destruct Hin as [Hin|Hin]; [discriminate|]). contradiction.
Qed.

(** A structural fraction of 0.05 is typed; the notes still say 0.10. *)
Lemma typed_fraction_run_prints_notes :
  In (Printed (MsgNotes 0.10 0.05))
     (out (main [Blank; Blank; Blank; Blank; Number 0.05; Blank])).
Proof.
  destruct (main_run Blank Blank Blank Blank (Number 0.05) Blank []
              blank_delta_v_accepted) as [evs Hrun].
  assert (HD : 0 < 1 - exp (9500 / (350 * 9.81)) * 0.05).
  { pose proof exp_default_bounds. lra. }
  pose proof (calculate_total_mass_feasible default_payload _ _ HD) as Ht.
  rewrite Hrun. cbv zeta.
  rewrite (main_calculations_feasible _ _ _ _
             (blank_run_orbital_velocity (Number 0.05))
             (blank_run_mass_ratio (Number 0.05)) _ [] Ht).
  simpl out. apply in_or_app. right.
  simpl. do 14 right. left. reflexivity.
Qed.

Lemma notes_name_the_default_witness :
  0.10 = 0.10 /\
  (exists m_payload mr,
      calls_of F_calculate_total_mass
        (out (main [Blank; Blank; Blank; Blank; Number 0.05; Blank]))
      = [[m_payload; mr; 0.05]]) /\
  calls_of F_find_max_structural_fraction
    (out (main [Blank; Blank; Blank; Blank; Number 0.05; Blank])) = [].
Proof.
  exact (notes_name_the_default _ _ _ typed_fraction_run_prints_notes).
Defined.




